(** * SP500MomentumTracker: the event-tracking state machine

    A shallow embedding of [sp500_tracker.py], and of [tickerDownload.py]
    which prepares its cache of tickers.  The three CSV files of the
    tracker are modelled as optional lists of rows (absent file = [None]),
    prices and percentages are IEEE binary64 numbers (Rocq's primitive
    floats, the arithmetic of Python's [float] and of [numpy.float64]),
    counters are Python integers ([Z]), and the two external collaborators
    (the Wikipedia/cache ticker sources and the yfinance price history) are
    passed in as explicit arguments.  Reading a file gives back the rows
    that were written (the CSV text itself is not modelled), and
    [datetime.now()] is one date per call of a method. *)

From Stdlib Require Import Floats.
From Stdlib Require Import ZArith Ascii String.
From stdpp Require Import gmap strings list.

Open Scope Z_scope.
Open Scope string_scope.
Open Scope list_scope.

(** ** Python scaffolding: exceptions, names, strings, floats *)

Inductive exn : Type :=
  | NameError (name : string)
  | Exception (msg : string).

Inductive result (A : Type) : Type :=
  | Return (a : A)
  | Raise (e : exn).
Arguments Return {A} a.
Arguments Raise {A} e.

(** Loading a name that is bound nowhere in the scopes visible from a method
    body raises [NameError]. *)
Definition load_name {A} (scope : gmap string A) (name : string) : result A :=
  match scope !! name with
  | Some v => Return v
  | None => Raise (NameError name)
  end.

(** [str.replace('.', '-')]. *)
Fixpoint replace_dot (s : string) : string :=
  match s with
  | EmptyString => EmptyString
  | String c rest =>
      String (if Ascii.eqb c "."%char then "-"%char else c) (replace_dot rest)
  end.

(** [str.isspace] on one character of ASCII text: tab, newline, vertical
    tab, form feed, carriage return, the four separators 0x1c-0x1f and the
    space. *)
Definition isspace (c : ascii) : bool :=
  let n := nat_of_ascii c in
  ((9 <=? n)%nat && (n <=? 13)%nat) || ((28 <=? n)%nat && (n <=? 32)%nat).

Fixpoint lstrip_chars (l : list ascii) : list ascii :=
  match l with
  | c :: rest => if isspace c then lstrip_chars rest else l
  | [] => []
  end.

(** [str.strip()] without arguments. *)
Definition strip (s : string) : string :=
  string_of_list_ascii
    (rev (lstrip_chars (rev (lstrip_chars (list_ascii_of_string s))))).

(** Truthiness of a string: non-empty. *)
Definition str_truthy (s : string) : bool :=
  match s with EmptyString => false | _ => true end.

Module F.
Open Scope float_scope.

Definition two52 : float := 4503599627370496.

(** [numpy.rint]: the nearest integer, ties to even.  Below 2^52 in
    magnitude, adding and removing 2^52 rounds (in the default rounding
    mode) to an integer; from 2^52 on every binary64 number is an
    integer already; NaN and the infinities are returned as they are. *)
Definition rint (x : float) : float :=
  if PrimFloat.ltb (PrimFloat.abs x) two52 then
    if PrimFloat.ltb x 0 then PrimFloat.opp ((PrimFloat.abs x + two52) - two52)
    else if PrimFloat.eqb x 0 then x
    else (x + two52) - two52
  else x.

(** [round(x, 2)] on a [numpy.float64]: scale by 10^2, [rint], unscale. *)
Definition round2 (x : float) : float := rint (x * 100) / 100.

(** [x > 0] and [x < 0] as Python evaluates them on floats. *)
Definition gt0 (x : float) : bool := PrimFloat.ltb 0 x.
Definition lt0 (x : float) : bool := PrimFloat.ltb x 0.
End F.

(** ** The universe provider: [get_sp500_tickers] *)

Definition fallback_tickers : list string :=
  [ "AAPL"; "MSFT"; "GOOGL"; "AMZN"; "NVDA"; "META"; "TSLA"; "BRK.B";
    "UNH"; "JNJ"; "XOM"; "V"; "PG"; "JPM"; "MA"; "HD"; "CVX"; "MRK";
    "LLY"; "ABBV"; "PEP"; "AVGO"; "KO"; "COST"; "WMT"; "MCD"; "CSCO";
    "TMO"; "ACN"; "ABT"; "ADBE"; "CRM"; "NFLX"; "DHR"; "VZ"; "NKE";
    "TXN"; "DIS"; "INTC"; "CMCSA"; "PM"; "UPS"; "ORCL"; "AMD"; "NEE" ].

(** What the outside world answers to one call of [get_sp500_tickers]:
    [wikipedia] is the outcome of the whole first [try] block up to the
    [Symbol] column (the column, or the exception raised on the way);
    [cache_file] is [None] when [sp500_tickers.txt] does not exist, and
    otherwise the outcome of opening and reading its lines. *)
Record Universe : Type := {
  wikipedia : result (list string);
  cache_file : option (result (list string))
}.

(** The names that can be bound when the last [return] of
    [get_sp500_tickers] runs: the method's locals (those of the first
    attempt are bound as far as that attempt got), then the module's
    globals, which are the imports and the class.  No builtin is called
    [fallback_ickers] either.  Only list-valued names matter to the
    [return], so the other bindings carry the empty list. *)
Definition method3_scope : gmap string (list string) :=
  <["fallback_tickers" := fallback_tickers]>
  (list_to_map
     ((λ n, (n, [])) <$>
        [ "self"; "requests"; "headers"; "url"; "response"; "tables";
          "sp500_table"; "tickers"; "cache_file";
          "yf"; "pd"; "np"; "datetime"; "timedelta"; "os"; "time"; "Path";
          "SP500MomentumTracker" ])).

Definition get_sp500_tickers (u : Universe) : result (list string) :=
  match wikipedia u with
  | Return tickers => Return (replace_dot <$> tickers)
  | Raise _ =>
      match cache_file u with
      | Some (Return lines) =>
          Return (List.filter str_truthy (strip <$> lines))
      | Some (Raise _) | None =>
          load_name method3_scope "fallback_ickers"
      end
  end.

(** ** Feature extraction: [get_ml_ready_dataset] *)

Record Snapshot : Type := {
  s_ticker : string;
  s_date_detected : string;
  tracking_day : Z;
  current_date : string;
  s_detection_price : float;
  s_current_price : float;
  initial_change_pct : float;
  cumulative_change_pct : float;
  s_status : string
}.

(** A row of the returned frame: the snapshot and the derived columns that
    do not involve dates. *)
Record Features : Type := {
  snapshot : Snapshot;
  initial_move_direction : string;
  initial_move_magnitude : float;
  momentum_continuation : float;
  continued_direction : bool
}.

Definition ml_features (s : Snapshot) : Features :=
  {| snapshot := s;
     initial_move_direction :=
       if F.gt0 (initial_change_pct s) then "gain" else "loss";
     initial_move_magnitude := PrimFloat.abs (initial_change_pct s);
     momentum_continuation :=
       PrimFloat.div (cumulative_change_pct s) (initial_change_pct s);
     continued_direction :=
       (F.gt0 (initial_change_pct s) && F.gt0 (cumulative_change_pct s))
       || (F.lt0 (initial_change_pct s) && F.lt0 (cumulative_change_pct s)) |}.

(** [None] is the empty frame returned when there is no snapshot file. *)
Definition get_ml_ready_dataset (daily_snapshot_file : option (list Snapshot))
  : option (list Features) :=
  match daily_snapshot_file with
  | None => None
  | Some df => Some (ml_features <$> df)
  end.

(** ** The ledger, the snapshot log and the historical store *)

(** One row of [tracking_list.csv] (and of [historical_tracking.csv]).  The
    last three columns only appear once the updater has written them; a cell
    that was never written is NaN for the two numeric columns and [None] for
    the date. *)
Record Row : Type := {
  ticker : string;
  date_detected : string;
  detection_price : float;
  change_pct : float;
  business_days_tracked : Z;
  status : string;
  current_price : float;
  total_change_pct : float;
  last_updated : option string
}.

(** [df.loc[idx, column] = value], one function per column the code writes. *)
Definition set_business_days_tracked (v : Z) (r : Row) : Row :=
  {| ticker := ticker r; date_detected := date_detected r;
     detection_price := detection_price r; change_pct := change_pct r;
     business_days_tracked := v; status := status r;
     current_price := current_price r;
     total_change_pct := total_change_pct r; last_updated := last_updated r |}.

Definition set_current_price (v : float) (r : Row) : Row :=
  {| ticker := ticker r; date_detected := date_detected r;
     detection_price := detection_price r; change_pct := change_pct r;
     business_days_tracked := business_days_tracked r; status := status r;
     current_price := v;
     total_change_pct := total_change_pct r; last_updated := last_updated r |}.

Definition set_total_change_pct (v : float) (r : Row) : Row :=
  {| ticker := ticker r; date_detected := date_detected r;
     detection_price := detection_price r; change_pct := change_pct r;
     business_days_tracked := business_days_tracked r; status := status r;
     current_price := current_price r;
     total_change_pct := v; last_updated := last_updated r |}.

Definition set_last_updated (v : string) (r : Row) : Row :=
  {| ticker := ticker r; date_detected := date_detected r;
     detection_price := detection_price r; change_pct := change_pct r;
     business_days_tracked := business_days_tracked r; status := status r;
     current_price := current_price r;
     total_change_pct := total_change_pct r; last_updated := Some v |}.

Definition set_status (v : string) (r : Row) : Row :=
  {| ticker := ticker r; date_detected := date_detected r;
     detection_price := detection_price r; change_pct := change_pct r;
     business_days_tracked := business_days_tracked r; status := v;
     current_price := current_price r;
     total_change_pct := total_change_pct r; last_updated := last_updated r |}.

(** The data directory: each file is absent ([None]) or holds its rows. *)
Record Files : Type := {
  tracking_file : option (list Row);
  historical_file : option (list Row);
  daily_snapshot_file : option (list Snapshot)
}.

(** [yf.Ticker(ticker).history(period=...)]: the [Close] column, oldest
    first, or the exception the call raised.  The first argument is the
    position of the call in its loop, so two calls for one ticker may
    answer differently. *)
Definition PriceSource : Type := nat → string → result (list float).

(** ** The event detector: [get_daily_movers] *)

(** [series.iloc[-k]] for [k >= 1]. *)
Definition iloc_neg (k : nat) (closes : list float) : option float :=
  if (k <=? length closes)%nat then closes !! (length closes - k)%nat else None.

(** The percentage change between two closes. *)
Definition pct_change (today_close prev_close : float) : float :=
  (((today_close - prev_close) / prev_close) * 100)%float.

(** The body of the scan loop for one ticker: the mover appended, if any. *)
Definition scan_ticker (threshold : float) (now : string) (tk : string)
    (hist : result (list float)) : option Row :=
  match hist with
  | Raise _ => None
  | Return closes =>
      if (length closes <? 2)%nat then None
      else
        match iloc_neg 1 closes, iloc_neg 2 closes with
        | Some today_close, Some prev_close =>
            let change := pct_change today_close prev_close in
            if PrimFloat.leb threshold (PrimFloat.abs change) then
              Some {| ticker := tk; date_detected := now;
                      detection_price := today_close;
                      change_pct := F.round2 change;
                      business_days_tracked := 0; status := "active";
                      current_price := nan; total_change_pct := nan;
                      last_updated := None |}
            else None
        | _, _ => None
        end
  end.

Definition get_daily_movers (u : Universe) (yf : PriceSource)
    (threshold : float) (now : string) : result (list Row) :=
  match get_sp500_tickers u with
  | Raise e => Raise e
  | Return tickers =>
      Return (omap (λ it, scan_ticker threshold now it.2 (yf it.1 it.2))
                (imap pair tickers))
  end.

(** ** Ledger insertion: [update_tracking_list] *)

Definition update_tracking_list (new_movers : list Row) (fs : Files) : Files :=
  let tracking_df := default [] (tracking_file fs) ++ new_movers in
  match tracking_df with
  | [] => fs
  | _ => {| tracking_file := Some tracking_df;
            historical_file := historical_file fs;
            daily_snapshot_file := daily_snapshot_file fs |}
  end.

(** ** The daily updater: [get_current_prices], [track_existing_stocks] *)

(** One iteration of the price loop. *)
Definition fetch_price (prices : gmap string (option float)) (tk : string)
    (hist : result (list float)) : gmap string (option float) :=
  match hist with
  | Return closes =>
      match last closes with
      | Some close => <[tk := Some close]> prices
      | None => prices
      end
  | Raise _ => <[tk := None]> prices
  end.

Fixpoint get_current_prices_from (i : nat) (yf : PriceSource)
    (tickers : list string) (prices : gmap string (option float))
  : gmap string (option float) :=
  match tickers with
  | [] => prices
  | tk :: rest =>
      get_current_prices_from (S i) yf rest (fetch_price prices tk (yf i tk))
  end.

Definition get_current_prices (yf : PriceSource) (tickers : list string)
  : gmap string (option float) :=
  get_current_prices_from 0 yf tickers ∅.

(** [prices.get(ticker)]: [None] for a missing key and for a stored [None]. *)
Definition dict_get (prices : gmap string (option float)) (tk : string)
  : option float :=
  mjoin (prices !! tk).

(** [tracking_df[tracking_df['status'] == 'active'].iterrows()]: the active
    rows with their index labels. *)
Definition active_stocks (tracking_df : list Row) : list (nat * Row) :=
  filter (λ ir, status ir.2 = "active") (imap pair tracking_df).

(** The body of the update loop.  [row] is the row as it was read before the
    loop; the writes go to [tracking_df] at the row's label. *)
Definition track_body (current_prices : gmap string (option float))
    (now : string) (acc : list Row * list Snapshot) (ir : nat * Row)
  : list Row * list Snapshot :=
  let '(tracking_df, daily_updates) := acc in
  let '(idx, row) := ir in
  match dict_get current_prices (ticker row) with
  | None => acc
  | Some cur =>
      let days_tracked := business_days_tracked row + 1 in
      let price_change :=
        (((cur - detection_price row) / detection_price row) * 100)%float in
      let tracking_df := alter (set_business_days_tracked days_tracked) idx tracking_df in
      let tracking_df := alter (set_current_price cur) idx tracking_df in
      let tracking_df := alter (set_total_change_pct (F.round2 price_change)) idx tracking_df in
      let tracking_df := alter (set_last_updated now) idx tracking_df in
      let tracking_df :=
        if (10 <=? days_tracked)%Z
        then alter (set_status "completed") idx tracking_df
        else tracking_df in
      (tracking_df,
       daily_updates ++
         [ {| s_ticker := ticker row;
              s_date_detected := date_detected row;
              tracking_day := days_tracked;
              current_date := now;
              s_detection_price := detection_price row;
              s_current_price := cur;
              initial_change_pct := change_pct row;
              cumulative_change_pct := F.round2 price_change;
              s_status := default "" (status <$> tracking_df !! idx) |} ])
  end.

(** Returns the files after the run and the frame of this run's snapshots. *)
Definition track_existing_stocks (yf : PriceSource) (now : string)
    (fs : Files) : Files * list Snapshot :=
  match tracking_file fs with
  | None => (fs, [])
  | Some tracking_df =>
      match active_stocks tracking_df with
      | [] => (fs, [])
      | active =>
          let current_prices := get_current_prices yf ((λ ir, ticker ir.2) <$> active) in
          let '(tracking_df, daily_updates) :=
            foldl (track_body current_prices now) (tracking_df, []) active in
          ({| tracking_file := Some tracking_df;
              historical_file := historical_file fs;
              daily_snapshot_file :=
                match daily_updates with
                | [] => daily_snapshot_file fs
                | _ => Some (default [] (daily_snapshot_file fs) ++ daily_updates)
                end |},
           daily_updates)
      end
  end.

(** ** The archiver: [archive_completed_stocks] *)

Definition archive_completed_stocks (fs : Files) : Files :=
  match tracking_file fs with
  | None => fs
  | Some tracking_df =>
      match filter (λ r, status r = "completed") tracking_df with
      | [] => fs
      | completed =>
          {| tracking_file := Some (filter (λ r, status r = "active") tracking_df);
             historical_file := Some (default [] (historical_file fs) ++ completed);
             daily_snapshot_file := daily_snapshot_file fs |}
      end
  end.

(** ** One daily run: [run_daily_update] *)

Definition run_daily_update (u : Universe) (yf5d yf1d : PriceSource)
    (threshold : float) (now : string) (fs : Files)
  : result (Files * (list Row * list Snapshot)) :=
  match get_daily_movers u yf5d threshold now with
  | Raise e => Raise e
  | Return new_movers =>
      let fs := update_tracking_list new_movers fs in
      let '(fs, daily_updates) := track_existing_stocks yf1d now fs in
      let fs := archive_completed_stocks fs in
      Return (fs, (new_movers, daily_updates))
  end.

(** ** What one run does to one row

    The net effect of the loop body on the row it visits, and the snapshot
    it records; [track_loop_spec] below shows that the loop of
    [track_existing_stocks] computes exactly these, row by row. *)

Definition update_row (cur : float) (now : string) (row : Row) : Row :=
  let days_tracked := business_days_tracked row + 1 in
  let price_change :=
    (((cur - detection_price row) / detection_price row) * 100)%float in
  let r :=
    set_last_updated now
      (set_total_change_pct (F.round2 price_change)
         (set_current_price cur
            (set_business_days_tracked days_tracked row))) in
  if (10 <=? days_tracked)%Z then set_status "completed" r else r.

Definition snapshot_of (cur : float) (now : string) (row : Row) : Snapshot :=
  {| s_ticker := ticker row;
     s_date_detected := date_detected row;
     tracking_day := business_days_tracked row + 1;
     current_date := now;
     s_detection_price := detection_price row;
     s_current_price := cur;
     initial_change_pct := change_pct row;
     cumulative_change_pct :=
       F.round2 (((cur - detection_price row) / detection_price row) * 100)%float;
     s_status := status (update_row cur now row) |}.

(** The price the loop sees for a row it visits, if any. *)
Definition price_for (prices : gmap string (option float)) (row : Row)
  : option float :=
  if decide (status row = "active") then dict_get prices (ticker row) else None.

Definition step_row (prices : gmap string (option float)) (now : string)
    (row : Row) : Row :=
  match price_for prices row with
  | Some cur => update_row cur now row
  | None => row
  end.

Definition step_snapshot (prices : gmap string (option float)) (now : string)
    (row : Row) : option Snapshot :=
  match price_for prices row with
  | Some cur => Some (snapshot_of cur now row)
  | None => None
  end.

(** The price dictionary a run over the ledger [tracking_df] builds. *)
Definition run_prices (yf : PriceSource) (tracking_df : list Row)
  : gmap string (option float) :=
  get_current_prices yf ((λ ir, ticker ir.2) <$> active_stocks tracking_df).

(** A sequence of updater runs, each with its own price source and date. *)
Definition updater_runs (runs : list (PriceSource * string)) (fs : Files)
  : Files :=
  foldl (λ fs run, (track_existing_stocks run.1 run.2 fs).1) fs runs.

(** ** Predicates and measures used in the statements *)

(** The four columns the detector fills in and nobody writes again. *)
Definition same_detection (row row' : Row) : Prop :=
  ticker row' = ticker row ∧ date_detected row' = date_detected row
  ∧ detection_price row' = detection_price row
  ∧ change_pct row' = change_pct row.

(** The observation window: an active event has had fewer than 10
    observations, a completed one exactly 10. *)
Definition in_window (r : Row) : Prop :=
  (status r = "active" ∧ (0 ≤ business_days_tracked r < 10)%Z)
  ∨ (status r = "completed" ∧ business_days_tracked r = 10).

(** The mover the detector records for a ticker whose last two closes are
    [prev_close] and [today_close]. *)
Definition mover (now tk : string) (prev_close today_close : float) : Row :=
  {| ticker := tk; date_detected := now;
     detection_price := today_close;
     change_pct :=
       F.round2 (((today_close - prev_close) / prev_close) * 100)%float;
     business_days_tracked := 0; status := "active";
     current_price := nan; total_change_pct := nan; last_updated := None |}.

(** An event is identified by its ticker and its detection date. *)
Definition event_key (r : Row) : string * string :=
  (ticker r, date_detected r).

Definition snapshot_key (s : Snapshot) : string * string :=
  (s_ticker s, s_date_detected s).

(** The observations recorded in [rows] for the event [k]. *)
Fixpoint observations (k : string * string) (rows : list Row) : Z :=
  match rows with
  | [] => 0
  | r :: rest =>
      ((if decide (event_key r = k) then business_days_tracked r else 0)
       + observations k rest)%Z
  end.

(** The snapshots of [log] that belong to the event [k]. *)
Fixpoint snapshots_logged (k : string * string) (log : list Snapshot) : Z :=
  match log with
  | [] => 0
  | s :: rest =>
      ((if decide (snapshot_key s = k) then 1 else 0)
       + snapshots_logged k rest)%Z
  end.

(** Every ledger row is active or completed, and for every event the
    snapshot log holds as many snapshots as the ledger and the historical
    store together record observations. *)
Definition ledger_consistent (fs : Files) : Prop :=
  Forall (λ r, status r = "active" ∨ status r = "completed")
    (default [] (tracking_file fs))
  ∧ ∀ k : string * string,
      snapshots_logged k (default [] (daily_snapshot_file fs))
      = (observations k (default [] (tracking_file fs))
         + observations k (default [] (historical_file fs)))%Z.

(** The inputs of one daily run. *)
Record Day : Type := {
  d_universe : Universe;
  d_yf5d : PriceSource;
  d_yf1d : PriceSource;
  d_threshold : float;
  d_now : string
}.

(** Daily runs one after the other; a run that raises stops the sequence. *)
Fixpoint daily_runs (days : list Day) (fs : Files) : result Files :=
  match days with
  | [] => Return fs
  | d :: rest =>
      match run_daily_update (d_universe d) (d_yf5d d) (d_yf1d d)
              (d_threshold d) (d_now d) fs with
      | Raise e => Raise e
      | Return out => daily_runs rest out.1
      end
  end.

Definition empty_dir : Files :=
  {| tracking_file := None; historical_file := None;
     daily_snapshot_file := None |}.

(** A snapshot with initial change 0 and the given cumulative change. *)
Definition zero_initial_snapshot (cumulative : float) : Snapshot :=
  {| s_ticker := "X"; s_date_detected := "2024-01-02"; tracking_day := 1;
     current_date := "2024-01-03"; s_detection_price := 100;
     s_current_price := 100; initial_change_pct := 0;
     cumulative_change_pct := cumulative; s_status := "active" |}.

(** ** Worked examples *)

(** An event for X detected at 100 with 8 observations so far. *)
Definition ex_row : Row :=
  {| ticker := "X"; date_detected := "2024-01-02"; detection_price := 100;
     change_pct := 6; business_days_tracked := 8; status := "active";
     current_price := nan; total_change_pct := nan; last_updated := None |}.

Definition ex_files : Files :=
  {| tracking_file := Some [ex_row]; historical_file := None;
     daily_snapshot_file := None |}.

(** X closes at 110. *)
Definition ex_yf : PriceSource := λ _ _, Return [110%float].

(** Every history call fails. *)
Definition ex_yf_down : PriceSource := λ _ _, Raise (Exception "timeout").

(** A day on which Wikipedia lists X alone, X went from 100 to 106 and
    closes at 110. *)
Definition ex_day : Day :=
  {| d_universe := {| wikipedia := Return ["X"]; cache_file := None |};
     d_yf5d := λ _ _, Return [100; 106]%float;
     d_yf1d := ex_yf;
     d_threshold := 5;
     d_now := "2024-01-02" |}.

(** ** The ticker list downloader: [tickerDownload.py] *)

(** The newline character and the one-character string ["\n"]. *)
Definition newline : ascii := "010"%char.
Definition carriage_return : ascii := "013"%char.
Definition nl : string := String newline EmptyString.

(** What the three remote sources answer: the [Symbol] column each download
    function gets hold of, or the exception raised on the way. *)
Record Sources : Type := {
  src_wikipedia_requests : result (list string);
  src_wikipedia_pandas : result (list string);
  src_alternative : result (list string)
}.

(** The list comprehension [[ticker.replace('.', '-') for ticker in tickers]]
    that ends each of the three download functions. *)
Definition clean_tickers (column : result (list string)) : result (list string) :=
  match column with
  | Return tickers => Return (replace_dot <$> tickers)
  | Raise e => Raise e
  end.

Definition download_from_wikipedia_requests (s : Sources) : result (list string) :=
  clean_tickers (src_wikipedia_requests s).

Definition download_from_wikipedia_pandas (s : Sources) : result (list string) :=
  clean_tickers (src_wikipedia_pandas s).

Definition download_from_alternative (s : Sources) : result (list string) :=
  clean_tickers (src_alternative s).

(** The text written by [for ticker in tickers: f.write(f"{ticker}\n")]. *)
Fixpoint file_text (tickers : list string) : string :=
  match tickers with
  | [] => EmptyString
  | t :: rest => String.append t (String.append nl (file_text rest))
  end.

(** Iterating over a file opened in text mode: the lines of [text], each
    with its terminator; a line ends at ["\n"], at ["\r\n"] or at a lone
    ["\r"], all three read as ["\n"]; [line] is the part of the current
    line read so far. *)
Fixpoint read_lines_from (line : string) (text : string) : list string :=
  match text with
  | EmptyString =>
      match line with
      | EmptyString => []
      | _ => [line]
      end
  | String c rest =>
      if Ascii.eqb c newline then
        String.append line nl :: read_lines_from EmptyString rest
      else if Ascii.eqb c carriage_return then
        String.append line nl ::
          read_lines_from EmptyString
            match rest with
            | String c' rest' => if Ascii.eqb c' newline then rest' else rest
            | EmptyString => rest
            end
      else read_lines_from (String.append line (String c EmptyString)) rest
  end.

Definition read_lines (text : string) : list string :=
  read_lines_from EmptyString text.

Definition major_tickers : list string :=
  [ "AAPL"; "MSFT"; "GOOGL"; "AMZN"; "NVDA"; "META"; "TSLA"; "AVGO"; "ORCL"; "ADBE";
    "CRM"; "ACN"; "AMD"; "CSCO"; "INTC"; "IBM"; "QCOM"; "TXN"; "INTU"; "NOW";
    "UNH"; "JNJ"; "LLY"; "ABBV"; "MRK"; "TMO"; "ABT"; "DHR"; "PFE"; "BMY";
    "AMGN"; "GILD"; "CVS"; "CI"; "ISRG"; "REGN"; "VRTX"; "MDT"; "BSX"; "ELV";
    "JPM"; "BAC"; "WFC"; "MS"; "GS"; "BLK"; "SPGI"; "C"; "AXP"; "USB";
    "PNC"; "TFC"; "BK"; "SCHW"; "COF"; "MMC"; "AON"; "ICE"; "MCO"; "CME";
    "AMZN"; "TSLA"; "HD"; "MCD"; "NKE"; "SBUX"; "TJX"; "LOW"; "BKNG"; "ABNB";
    "WMT"; "PG"; "COST"; "KO"; "PEP"; "PM"; "MO"; "CL"; "MDLZ"; "KMB";
    "XOM"; "CVX"; "COP"; "SLB"; "EOG"; "MPC"; "PSX"; "VLO"; "OXY"; "HAL";
    "UPS"; "RTX"; "HON"; "UNP"; "BA"; "CAT"; "GE"; "DE"; "LMT"; "MMM";
    "META"; "GOOGL"; "NFLX"; "DIS"; "CMCSA"; "VZ"; "T"; "TMUS"; "EA"; "PARA";
    "NEE"; "DUK"; "SO"; "D"; "AEP"; "EXC"; "SRE"; "PEG"; "XEL"; "ED";
    "PLD"; "AMT"; "EQIX"; "PSA"; "SPG"; "WELL"; "DLR"; "O"; "VICI"; "AVB";
    "LIN"; "APD"; "SHW"; "ECL"; "FCX"; "NEM"; "DOW"; "DD"; "NUE"; "VMC" ].

(** [sorted(list(set(l)))] on strings: the distinct elements in increasing
    order of their characters' codes. *)
Fixpoint insert_sorted (t : string) (sorted : list string) : list string :=
  match sorted with
  | [] => [t]
  | x :: rest =>
      match String.compare t x with
      | Lt => t :: sorted
      | Eq => sorted
      | Gt => x :: insert_sorted t rest
      end
  end.

Definition sorted_set (l : list string) : list string :=
  foldr insert_sorted [] l.

(** The text [create_fallback_file] writes. *)
Definition create_fallback_file : string :=
  file_text (sorted_set major_tickers).

(** The [for] loop of [download_sp500_tickers] over the outcomes of the
    three methods: the first non-empty list is returned; an exception or
    an empty list moves on to the next method. *)
Fixpoint first_success (methods : list (result (list string)))
  : option (list string) :=
  match methods with
  | [] => None
  | Return (t :: tickers) :: _ => Some (t :: tickers)
  | _ :: rest => first_success rest
  end.

(** Returns the value of the call ([None] is Python's [None]) and the text
    of [sp500_tickers.txt] after it.  Writing the file is taken to
    succeed. *)
Definition download_sp500_tickers (s : Sources) : option (list string) * string :=
  match first_success
          [ download_from_wikipedia_requests s;
            download_from_wikipedia_pandas s;
            download_from_alternative s ] with
  | Some tickers => (Some tickers, file_text tickers)
  | None => (None, create_fallback_file)
  end.

(** The universe the tracker sees when Wikipedia is out of reach and
    [sp500_tickers.txt] holds [text]. *)
Definition cached_universe (e : exn) (text : string) : Universe :=
  {| wikipedia := Raise e; cache_file := Some (Return (read_lines text)) |}.

(** Text made of ASCII characters only. *)
Definition ascii_text (s : string) : Prop :=
  Forall (λ c, (nat_of_ascii c < 128)%nat) (list_ascii_of_string s).

(** A ticker of ASCII characters none of which is white space, and not
    empty. *)
Definition plain_ticker (t : string) : Prop :=
  t ≠ EmptyString
  ∧ Forall (λ c, isspace c = false ∧ (nat_of_ascii c < 128)%nat)
      (list_ascii_of_string t).

(** Every history call of the source answers with at least one close. *)
Definition always_priced (yf : PriceSource) : Prop :=
  ∀ (i : nat) (tk : string),
    ∃ (closes : list float) (close : float),
      yf i tk = Return closes ∧ last closes = Some close.

(** A download method that gives nothing to save: it raised, or returned
    an empty list. *)
Definition method_failed (m : result (list string)) : Prop :=
  m = Return [] ∨ ∃ e, m = Raise e.

(** Wikipedia lists BRK.B and AAPL. *)
Definition ex_universe_wikipedia : Universe :=
  {| wikipedia := Return ["BRK.B"; "AAPL"]; cache_file := None |}.

(** Wikipedia is out of reach; the cache file has a padded line, a blank
    line and a line with a dot. *)
Definition ex_universe_cache : Universe :=
  {| wikipedia := Raise (Exception "HTTP 403");
     cache_file :=
       Some (Return [ String.append " AAPL " nl; nl;
                      String.append "BRK.B" nl ]) |}.

(** The first download method raises, the second finds nothing, the third
    gets two symbols. *)
Definition ex_sources : Sources :=
  {| src_wikipedia_requests := Raise (Exception "HTTP 403");
     src_wikipedia_pandas := Return [];
     src_alternative := Return ["BRK.B"; "AAPL"] |}.

(** The first history call answers 110, every later one raises. *)
Definition ex_yf_flaky : PriceSource :=
  λ i _, match i with
         | O => Return [110%float]
         | S _ => Raise (Exception "rate limit")
         end.

(** An event for X detected at 100, not observed yet. *)
Definition ex_fresh_row : Row := set_business_days_tracked 0 ex_row.

(** The same event after its tenth observation. *)
Definition ex_completed_row : Row :=
  set_status "completed" (set_business_days_tracked 10 ex_row).

(** A row whose status was edited by hand. *)
Definition ex_paused_row : Row := set_status "paused" ex_row.

(** * Theorems *)

(** C4 (failing input): when the Wikipedia fetch raises and there is no cache
    file, or reading the cache file raises too, the last [return] names
    [fallback_ickers], which is bound nowhere, so the call raises
    [NameError] instead of returning the hardcoded list. *)
Theorem get_sp500_tickers_total_failure_raises :
  get_sp500_tickers
    {| wikipedia := Raise (Exception "HTTP 403"); cache_file := None |}
  = Raise (NameError "fallback_ickers")
  ∧ get_sp500_tickers
      {| wikipedia := Raise (Exception "HTTP 403");
         cache_file := Some (Raise (Exception "Permission denied")) |}
    = Raise (NameError "fallback_ickers").
Proof. split; vm_compute; reflexivity. Qed.

(** ** The update loop, row by row *)

Section track_loop.
Variables (prices : gmap string (option float)) (now : string).

Lemma alter_middle (f : Row → Row) (pre suf : list Row) (r : Row) :
  alter f (length pre + 0)%nat (pre ++ r :: suf) = pre ++ f r :: suf.
Proof. by rewrite alter_app_r. Qed.

Lemma track_body_active (pre suf : list Row) (snaps : list Snapshot)
    (row : Row) (cur : float) :
  dict_get prices (ticker row) = Some cur →
  track_body prices now (pre ++ row :: suf, snaps) ((length pre + 0)%nat, row)
  = (pre ++ update_row cur now row :: suf, snaps ++ [snapshot_of cur now row]).
Proof.
  intros Hcur. unfold track_body. rewrite Hcur. cbv zeta.
  rewrite !alter_middle. unfold snapshot_of, update_row. cbv zeta.
  destruct (10 <=? business_days_tracked row + 1)%Z;
    rewrite Nat.add_0_r, list_lookup_middle by done; done.
Qed.

Lemma step_updated (row : Row) (cur : float) :
  status row = "active" → dict_get prices (ticker row) = Some cur →
  step_row prices now row = update_row cur now row
  ∧ step_snapshot prices now row = Some (snapshot_of cur now row).
Proof.
  intros Hact Hcur. unfold step_row, step_snapshot, price_for.
  by rewrite decide_True, Hcur.
Qed.

Lemma step_skipped (row : Row) :
  status row ≠ "active" ∨ dict_get prices (ticker row) = None →
  step_row prices now row = row ∧ step_snapshot prices now row = None.
Proof.
  intros H. unfold step_row, step_snapshot, price_for.
  destruct (decide (status row = "active")); [|done].
  destruct H as [H|H]; [done|]. by rewrite H.
Qed.

Lemma track_loop_from (suf pre : list Row) (snaps : list Snapshot) :
  foldl (track_body prices now) (pre ++ suf, snaps)
    (filter (λ ir, status ir.2 = "active")
       (imap (λ i r, ((length pre + i)%nat, r)) suf))
  = (pre ++ (step_row prices now <$> suf),
     snaps ++ omap (step_snapshot prices now) suf).
Proof.
  revert pre snaps. induction suf as [|row suf IH]; intros pre snaps.
  - simpl. by rewrite !app_nil_r.
  - assert (Hshift : ∀ r' : Row,
      imap ((λ i r, ((length pre + i)%nat, r)) ∘ S) suf
      = imap (λ i r, ((length (pre ++ [r']) + i)%nat, r)) suf).
    { intros r'. apply imap_ext. intros i x _. simpl.
      rewrite length_app. simpl. f_equal. lia. }
    rewrite imap_cons, filter_cons, fmap_cons.
    change (omap (step_snapshot prices now) (row :: suf))
      with (match step_snapshot prices now row with
            | Some s => s :: omap (step_snapshot prices now) suf
            | None => omap (step_snapshot prices now) suf
            end).
    cbn [snd].
    destruct (decide (status row = "active")) as [Hact|Hact];
      [destruct (dict_get prices (ticker row)) as [cur|] eqn:Hcur|].
    + destruct (step_updated row cur Hact Hcur) as [-> ->].
      cbn [foldl]. rewrite (track_body_active _ _ _ _ _ Hcur).
      rewrite (Hshift (update_row cur now row)).
      rewrite (cons_middle (update_row cur now row) pre suf), app_assoc.
      rewrite IH. by rewrite <- !app_assoc.
    + destruct (step_skipped row (or_intror Hcur)) as [-> ->].
      cbn [foldl]. unfold track_body at 2. rewrite Hcur.
      rewrite (Hshift row), (cons_middle row pre suf), app_assoc.
      rewrite IH. by rewrite <- !app_assoc.
    + destruct (step_skipped row (or_introl Hact)) as [-> ->].
      rewrite (Hshift row), (cons_middle row pre suf), app_assoc.
      rewrite IH. by rewrite <- !app_assoc.
Qed.

Lemma track_loop_spec (tracking_df : list Row) :
  foldl (track_body prices now) (tracking_df, []) (active_stocks tracking_df)
  = (step_row prices now <$> tracking_df,
     omap (step_snapshot prices now) tracking_df).
Proof. apply (track_loop_from tracking_df [] []). Qed.

End track_loop.

(** ** Fields of an updated row *)

Lemma update_row_days (cur : float) (now : string) (row : Row) :
  business_days_tracked (update_row cur now row) = business_days_tracked row + 1.
Proof. unfold update_row. cbv zeta. by destruct (10 <=? _)%Z. Qed.

Lemma update_row_status (cur : float) (now : string) (row : Row) :
  status (update_row cur now row)
  = if (10 <=? business_days_tracked row + 1)%Z then "completed" else status row.
Proof. unfold update_row. cbv zeta. by destruct (10 <=? _)%Z. Qed.

Lemma update_row_written (cur : float) (now : string) (row : Row) :
  current_price (update_row cur now row) = cur
  ∧ total_change_pct (update_row cur now row)
    = F.round2 (((cur - detection_price row) / detection_price row) * 100)%float
  ∧ last_updated (update_row cur now row) = Some now.
Proof. unfold update_row. cbv zeta. by destruct (10 <=? _)%Z. Qed.

Lemma update_row_same_detection (cur : float) (now : string) (row : Row) :
  same_detection row (update_row cur now row).
Proof. unfold same_detection, update_row. cbv zeta. by destruct (10 <=? _)%Z. Qed.


(** ** One run of [track_existing_stocks], file by file *)

Lemma track_existing_stocks_spec (yf : PriceSource) (now : string)
    (fs : Files) (tracking_df : list Row) :
  tracking_file fs = Some tracking_df →
  let prices := run_prices yf tracking_df in
  let daily_updates := omap (step_snapshot prices now) tracking_df in
  tracking_file (track_existing_stocks yf now fs).1
    = Some (step_row prices now <$> tracking_df)
  ∧ historical_file (track_existing_stocks yf now fs).1 = historical_file fs
  ∧ (track_existing_stocks yf now fs).2 = daily_updates
  ∧ daily_snapshot_file (track_existing_stocks yf now fs).1
    = match daily_updates with
      | [] => daily_snapshot_file fs
      | _ => Some (default [] (daily_snapshot_file fs) ++ daily_updates)
      end.
Proof.
  intros Hfile prices daily_updates. unfold track_existing_stocks.
  rewrite Hfile.
  pose proof (track_loop_spec prices now tracking_df) as Hloop.
  fold daily_updates in Hloop. unfold prices, run_prices in *.
  destruct (active_stocks tracking_df) as [|ir active] eqn:Hactive.
  - cbn in Hloop |- *. injection Hloop as Hdf Hdaily.
    rewrite <- Hdf, <- Hdaily. done.
  - rewrite Hloop. done.
Qed.


(** ** One step of the daily updater *)



(** ** Sequences of updater runs *)

(** A property [P] of rows kept by every update, and a relation [R] between
    a row and the same row later that every update extends, carry over to
    any sequence of runs. *)
Lemma updater_runs_rows (P : Row → Prop) (R : Row → Row → Prop) :
  (∀ r, R r r) →
  (∀ a b c, R a b → R b c → R a c) →
  (∀ prices now r, P r → P (step_row prices now r) ∧ R r (step_row prices now r)) →
  ∀ (runs : list (PriceSource * string)) (fs : Files) (tracking_df : list Row),
    tracking_file fs = Some tracking_df →
    Forall P tracking_df →
    ∃ tracking_df' : list Row,
      tracking_file (updater_runs runs fs) = Some tracking_df'
      ∧ Forall P tracking_df'
      ∧ Forall2 R tracking_df tracking_df'.
Proof.
  intros Hrefl Htrans Hstep runs. unfold updater_runs.
  induction runs as [|[yf now] runs IH]; intros fs tracking_df Hfile HP.
  - exists tracking_df. split; [done|]. split; [done|].
    apply Forall2_same_length_lookup_2; [done|].
    intros i x y Hx Hy. replace y with x by congruence. apply Hrefl.
  - cbn [foldl fst snd].
    destruct (track_existing_stocks_spec yf now fs tracking_df Hfile)
      as (Hdf & _).
    set (prices := run_prices yf tracking_df) in *.
    assert (HP' : Forall P (step_row prices now <$> tracking_df)).
    { apply Forall_fmap. eapply Forall_impl; [exact HP|].
      intros r Hr. apply (Hstep prices now r Hr). }
    destruct (IH _ _ Hdf HP') as (tracking_df' & Hfile' & HP'' & HR).
    exists tracking_df'. split; [done|]. split; [done|].
    rewrite Forall2_fmap_l in HR.
    clearbody prices. clear -HR HP Hstep Htrans. revert HP.
    induction HR as [|r r' l l' Hrr' _ IHl]; intros HP; [constructor|].
    inversion HP as [|? ? Hr HPl]; subst. constructor.
    + eapply Htrans; [|exact Hrr']. apply (Hstep prices now r Hr).
    + by apply IHl.
Qed.

Lemma step_row_cases prices now (r : Row) :
  (step_row prices now r = r
   ∧ (status r ≠ "active" ∨ dict_get prices (ticker r) = None))
  ∨ (∃ cur, status r = "active" ∧ dict_get prices (ticker r) = Some cur
            ∧ step_row prices now r = update_row cur now r).
Proof.
  destruct (decide (status r = "active")) as [Hact|Hact].
  - destruct (dict_get prices (ticker r)) as [cur|] eqn:Hcur.
    + right. exists cur. split_and!; [done..|].
      apply (step_updated prices now r cur Hact Hcur).
    + left. split; [|by right].
      apply (step_skipped prices now r (or_intror Hcur)).
  - left. split; [|by left].
    apply (step_skipped prices now r (or_introl Hact)).
Qed.

Lemma step_row_in_window prices now (r : Row) :
  in_window r → in_window (step_row prices now r).
Proof.
  intros Hw. destruct (step_row_cases prices now r)
    as [[-> _]|(cur & Hact & _ & ->)]; [done|].
  unfold in_window. rewrite update_row_days, update_row_status, Hact.
  destruct Hw as [[_ Hd]|[Hc _]]; [|congruence].
  destruct (Z.leb_spec 10 (business_days_tracked r + 1)).
  - right. split; [done|lia].
  - left. split; [done|lia].
Qed.

Lemma scan_ticker_fresh threshold now tk hist (r : Row) :
  scan_ticker threshold now tk hist = Some r →
  business_days_tracked r = 0 ∧ status r = "active" ∧ ticker r = tk.
Proof.
  unfold scan_ticker. intros H.
  destruct hist as [closes|]; [|done].
  destruct (length closes <? 2)%nat; [done|].
  destruct (iloc_neg 1 closes); [|done].
  destruct (iloc_neg 2 closes); [|done].
  destruct (PrimFloat.leb _ _); [|done].
  by injection H as <-.
Qed.

Lemma get_daily_movers_fresh u yf threshold now (movers : list Row) :
  get_daily_movers u yf threshold now = Return movers →
  Forall (λ r, business_days_tracked r = 0 ∧ status r = "active") movers.
Proof.
  unfold get_daily_movers. destruct (get_sp500_tickers u); [|done].
  intros [= <-]. apply Forall_forall. intros r Hin.
  apply list_elem_of_omap in Hin as ([i tk] & _ & Hr).
  apply scan_ticker_fresh in Hr. tauto.
Qed.


(** C2: start from a ledger whose events are in their observation window
    (as the detector creates them: 0 observations, active).  After any
    sequence of daily updater runs, and through one more run, every event
    is still in its window, so its count never exceeds 10 and it is
    completed exactly when the count is 10; the count never decreases; a
    run either leaves the event as it was or adds exactly 1 to the count of
    an active event, and does add 1 whenever the event is active and its
    price is available; the event becomes completed in the run that takes
    the count to 10; a completed event is never touched again. *)
Theorem observation_window_invariant (runs : list (PriceSource * string))
    (yf : PriceSource) (now : string) (fs : Files) (tracking_df : list Row) :
  tracking_file fs = Some tracking_df →
  Forall in_window tracking_df →
  ∃ df1 df2 : list Row,
    tracking_file (updater_runs runs fs) = Some df1
    ∧ tracking_file (track_existing_stocks yf now (updater_runs runs fs)).1
      = Some df2
    ∧ ∀ (i : nat) (row : Row),
        tracking_df !! i = Some row →
        ∃ row1 row2 : Row,
          df1 !! i = Some row1 ∧ df2 !! i = Some row2
          ∧ in_window row1 ∧ in_window row2
          ∧ (business_days_tracked row ≤ business_days_tracked row1)%Z
          ∧ (business_days_tracked row1 ≤ business_days_tracked row2 ≤ 10)%Z
          ∧ (status row = "completed" → row1 = row)
          ∧ (status row1 = "completed" → row2 = row1)
          ∧ (row2 = row1
             ∨ (status row1 = "active"
                ∧ business_days_tracked row2 = business_days_tracked row1 + 1))
          ∧ (∀ cur : float,
               status row1 = "active" →
               dict_get (run_prices yf df1) (ticker row1) = Some cur →
               business_days_tracked row2 = business_days_tracked row1 + 1)
          ∧ (status row1 = "active" ∧ status row2 = "completed"
             ↔ (business_days_tracked row1 < 10)%Z
               ∧ business_days_tracked row2 = 10).
Proof.
  intros Hfile Hwin.
  destruct (updater_runs_rows in_window
              (λ a b, (business_days_tracked a ≤ business_days_tracked b)%Z
                      ∧ (status a = "completed" → b = a)))
    with (runs := runs) (fs := fs) (tracking_df := tracking_df)
    as (df1 & Hfile1 & Hwin1 & HR); try done.
  - intros a b c [Hab Hab'] [Hbc Hbc']. split; [lia|].
    intros Ha. specialize (Hab' Ha). subst b. by apply Hbc'.
  - intros prices now' r Hr. split; [by apply step_row_in_window|].
    destruct (step_row_cases prices now' r)
      as [[-> _]|(cur & Hact & _ & ->)]; [done|].
    rewrite update_row_days. split; [lia|congruence].
  - destruct (track_existing_stocks_spec yf now _ df1 Hfile1) as (Hfile2 & _).
    exists df1, (step_row (run_prices yf df1) now <$> df1).
    split; [done|]. split; [done|]. intros i row Hi.
    destruct (Forall2_lookup_l _ _ _ _ _ HR Hi) as (row1 & Hi1 & Hle & Hdone).
    exists row1, (step_row (run_prices yf df1) now row1).
    split; [done|]. split; [by rewrite list_lookup_fmap, Hi1|].
    assert (Hw1 : in_window row1).
    { eapply Forall_lookup_1; [exact Hwin1|exact Hi1]. }
    pose proof (step_row_in_window (run_prices yf df1) now row1 Hw1) as Hw2.
    split; [done|]. split; [done|]. split; [done|].
    destruct (step_row_cases (run_prices yf df1) now row1)
      as [[Heq Hskip]|(cur & Hact & Hcur & Heq)]; rewrite Heq in Hw2 |- *.
    + assert (business_days_tracked row1 ≤ 10)%Z
        by (destruct Hw1 as [[_ ?]|[_ ?]]; lia).
      split_and!; try done; try lia; try tauto.
      * intros cur Hact Hcur. destruct Hskip; congruence.
      * split.
        -- intros [Ha Hc]. congruence.
        -- intros [Hlt Heq10]. lia.
    + pose proof (update_row_days cur now row1) as Hd.
      pose proof (update_row_status cur now row1) as Hs.
      assert (Hlt : (0 ≤ business_days_tracked row1 < 10)%Z)
        by (destruct Hw1 as [[_ ?]|[? _]]; [done|congruence]).
      split_and!; try lia.
      * exact Hdone.
      * congruence.
      * by right.
      * rewrite Hs, Hd.
        destruct (Z.leb_spec 10 (business_days_tracked row1 + 1)); split;
          intros [? ?]; split; try done; try lia; congruence.
Qed.

(** ** The archiver *)

Lemma no_completed_among_active (rows : list Row) :
  filter (λ r, status r = "completed") (filter (λ r, status r = "active") rows)
  = [].
Proof.
  induction rows as [|r rows IH]; [done|].
  rewrite filter_cons. destruct (decide (status r = "active")) as [Hact|_].
  - rewrite filter_cons, decide_False; [done|congruence].
  - done.
Qed.

(** C3: running the archiver on the files the archiver has just written
    changes nothing: the ledger, the historical store and the snapshot log
    stay as the first run left them. *)
Theorem archiver_idempotent (fs : Files) :
  archive_completed_stocks (archive_completed_stocks fs)
  = archive_completed_stocks fs.
Proof.
  unfold archive_completed_stocks.
  destruct (tracking_file fs) as [tracking_df|] eqn:Hfile; [|by rewrite Hfile].
  destruct (filter (λ r, status r = "completed") tracking_df)
    as [|r completed] eqn:Hcompleted; [by rewrite Hfile, Hcompleted|].
  cbn [tracking_file]. by rewrite no_completed_among_active.
Qed.

(** ** Counting observations and snapshots per event *)

Lemma observations_app k (l1 l2 : list Row) :
  observations k (l1 ++ l2) = (observations k l1 + observations k l2)%Z.
Proof. induction l1 as [|r l1 IH]; simpl; [done|]. rewrite IH. lia. Qed.

Lemma snapshots_logged_app k (l1 l2 : list Snapshot) :
  snapshots_logged k (l1 ++ l2)
  = (snapshots_logged k l1 + snapshots_logged k l2)%Z.
Proof. induction l1 as [|s l1 IH]; simpl; [done|]. rewrite IH. lia. Qed.

Lemma update_row_key (cur : float) (now : string) (row : Row) :
  event_key (update_row cur now row) = event_key row.
Proof.
  destruct (update_row_same_detection cur now row) as (Ht & Hd & _).
  unfold event_key. by rewrite Ht, Hd.
Qed.

Lemma step_observations prices now k (rows : list Row) :
  observations k (step_row prices now <$> rows)
  = (observations k rows
     + snapshots_logged k (omap (step_snapshot prices now) rows))%Z.
Proof.
  induction rows as [|r rows IH]; [done|].
  rewrite fmap_cons.
  change (omap (step_snapshot prices now) (r :: rows))
    with (match step_snapshot prices now r with
          | Some s => s :: omap (step_snapshot prices now) rows
          | None => omap (step_snapshot prices now) rows
          end).
  cbn [observations]. rewrite IH.
  destruct (step_row_cases prices now r)
    as [[Heq Hskip]|(cur & Hact & Hcur & Heq)].
  - destruct (step_skipped prices now r Hskip) as [_ ->]. rewrite Heq. lia.
  - destruct (step_updated prices now r cur Hact Hcur) as [_ ->].
    rewrite Heq, update_row_key, update_row_days. cbn [snapshots_logged].
    change (snapshot_key (snapshot_of cur now r)) with (event_key r).
    destruct (decide (event_key r = k)); lia.
Qed.

Lemma step_row_status prices now (r : Row) :
  status r = "active" ∨ status r = "completed" →
  status (step_row prices now r) = "active"
  ∨ status (step_row prices now r) = "completed".
Proof.
  intros Hs. destruct (step_row_cases prices now r)
    as [[-> _]|(cur & Hact & _ & ->)]; [done|].
  rewrite update_row_status, Hact. destruct (10 <=? _)%Z; auto.
Qed.

Lemma track_existing_stocks_consistent yf now (fs : Files) :
  ledger_consistent fs →
  ledger_consistent (track_existing_stocks yf now fs).1.
Proof.
  intros [Hst Hcount].
  destruct (tracking_file fs) as [tracking_df|] eqn:Hfile.
  - destruct (track_existing_stocks_spec yf now fs tracking_df Hfile)
      as (Hdf & Hhist & _ & Hlog).
    cbn [default from_option] in Hst, Hcount.
    unfold ledger_consistent. rewrite Hdf, Hhist, Hlog.
    cbn [default from_option]. split.
    + apply Forall_fmap. eapply Forall_impl; [exact Hst|].
      intros r Hr. by apply step_row_status.
    + intros k. specialize (Hcount k). unfold id in *.
      rewrite step_observations.
      destruct (omap _ tracking_df) as [|s daily] eqn:Hdaily.
      * cbn [snapshots_logged]. lia.
      * cbn [default from_option]. rewrite snapshots_logged_app. lia.
  - unfold track_existing_stocks. rewrite Hfile. cbn [fst].
    unfold ledger_consistent. rewrite Hfile. by split.
Qed.

Lemma fresh_observations k (movers : list Row) :
  Forall (λ r, business_days_tracked r = 0 ∧ status r = "active") movers →
  observations k movers = 0.
Proof.
  induction 1 as [|r movers [Hr _] _ IH]; [done|].
  cbn [observations]. rewrite IH, Hr. by destruct (decide _).
Qed.

Lemma update_tracking_list_consistent (movers : list Row) (fs : Files) :
  Forall (λ r, business_days_tracked r = 0 ∧ status r = "active") movers →
  ledger_consistent fs →
  ledger_consistent (update_tracking_list movers fs).
Proof.
  intros Hfresh [Hst Hcount]. unfold update_tracking_list.
  destruct (default [] (tracking_file fs) ++ movers) as [|r rows] eqn:Happ;
    [done|].
  rewrite <- Happ. split; cbn [tracking_file historical_file
                               daily_snapshot_file default from_option].
  - apply Forall_app. split; [done|].
    eapply Forall_impl; [exact Hfresh|]. intros ? [_ ?]. by left.
  - intros k. specialize (Hcount k). unfold id in *.
    rewrite observations_app, (fresh_observations k movers Hfresh). lia.
Qed.

Lemma archive_partition k (rows : list Row) :
  Forall (λ r, status r = "active" ∨ status r = "completed") rows →
  (observations k (filter (λ r, status r = "active") rows)
   + observations k (filter (λ r, status r = "completed") rows))%Z
  = observations k rows.
Proof.
  induction 1 as [|r rows Hr _ IH]; [done|].
  rewrite !filter_cons.
  destruct (decide (status r = "active")) as [Ha|Ha];
    destruct (decide (status r = "completed")) as [Hc|Hc];
    cbn [observations]; try lia; try congruence.
  destruct Hr; congruence.
Qed.

Lemma archive_completed_stocks_consistent (fs : Files) :
  ledger_consistent fs → ledger_consistent (archive_completed_stocks fs).
Proof.
  intros [Hst Hcount]. unfold archive_completed_stocks.
  destruct (tracking_file fs) as [tracking_df|] eqn:Hfile.
  - destruct (filter (λ r, status r = "completed") tracking_df)
      as [|r completed] eqn:Hcompleted.
    + split; [by rewrite Hfile|]. by rewrite Hfile.
    + rewrite <- Hcompleted. simpl in Hst, Hcount.
      split; cbn [tracking_file historical_file daily_snapshot_file
                  default from_option].
      * apply Forall_forall. intros x Hx.
        apply list_elem_of_filter in Hx as [Hx _]. by left.
      * intros k. specialize (Hcount k). unfold id in *.
        rewrite observations_app, Hcount.
        rewrite <- (archive_partition k tracking_df Hst). lia.
  - split; [by rewrite Hfile|]. by rewrite Hfile.
Qed.

Lemma run_daily_update_consistent u yf5d yf1d threshold now (fs : Files) out :
  ledger_consistent fs →
  run_daily_update u yf5d yf1d threshold now fs = Return out →
  ledger_consistent out.1.
Proof.
  intros Hcons. unfold run_daily_update.
  destruct (get_daily_movers u yf5d threshold now) as [movers|] eqn:Hmovers;
    [|done].
  pose proof (get_daily_movers_fresh _ _ _ _ _ Hmovers) as Hfresh.
  pose proof (update_tracking_list_consistent movers fs Hfresh Hcons) as H1.
  pose proof (track_existing_stocks_consistent yf1d now _ H1) as H2.
  destruct (track_existing_stocks yf1d now (update_tracking_list movers fs))
    as [fs2 daily]. intros [= <-]. simpl in *.
  by apply archive_completed_stocks_consistent.
Qed.

Lemma daily_runs_consistent (days : list Day) (fs fs' : Files) :
  ledger_consistent fs → daily_runs days fs = Return fs' →
  ledger_consistent fs'.
Proof.
  revert fs. induction days as [|d days IH]; intros fs Hcons; simpl.
  - by intros [= <-].
  - destruct (run_daily_update _ _ _ _ _ fs) as [out|] eqn:Hrun; [|done].
    apply IH. by eapply run_daily_update_consistent.
Qed.

Lemma omap_length_filter prices now (rows : list Row) :
  length (omap (step_snapshot prices now) rows)
  = length (filter (λ r, status r = "active"
                         ∧ is_Some (dict_get prices (ticker r))) rows).
Proof.
  induction rows as [|r rows IH]; [done|].
  change (omap (step_snapshot prices now) (r :: rows))
    with (match step_snapshot prices now r with
          | Some s => s :: omap (step_snapshot prices now) rows
          | None => omap (step_snapshot prices now) rows
          end).
  rewrite filter_cons.
  destruct (step_row_cases prices now r)
    as [[_ Hskip]|(cur & Hact & Hcur & _)].
  - destruct (step_skipped prices now r Hskip) as [_ ->].
    rewrite decide_False; [done|].
    intros [Ha [p Hp]]. destruct Hskip; congruence.
  - destruct (step_updated prices now r cur Hact Hcur) as [_ ->].
    rewrite decide_True by (split; [done|by exists cur]).
    simpl. by rewrite IH.
Qed.

(** C10: in one run of the daily updater the snapshot frame has one entry
    per successfully updated event (an active row whose ticker has a
    price); every entry belongs to such a row, identifies the same event
    and records as tracking day the row's observation count after the
    update; so for every event the run adds as many snapshots as
    observations.  Over whole daily runs (detector, insertion, updater,
    archiver), started from files where the counts agree, in particular
    from an empty data directory, the number of snapshots logged for an
    event always equals the observations recorded for it in the ledger and
    the historical store. *)
Theorem snapshots_match_observations :
  (∀ (yf : PriceSource) (now : string) (fs : Files) (tracking_df : list Row),
     tracking_file fs = Some tracking_df →
     ∃ tracking_df' : list Row,
       tracking_file (track_existing_stocks yf now fs).1 = Some tracking_df'
       ∧ length (track_existing_stocks yf now fs).2
         = length (filter (λ r, status r = "active"
                                ∧ is_Some (dict_get (run_prices yf tracking_df)
                                             (ticker r)))
                     tracking_df)
       ∧ (∀ snap : Snapshot,
            snap ∈ (track_existing_stocks yf now fs).2 →
            ∃ (i : nat) (row row' : Row),
              tracking_df !! i = Some row ∧ tracking_df' !! i = Some row'
              ∧ status row = "active"
              ∧ is_Some (dict_get (run_prices yf tracking_df) (ticker row))
              ∧ business_days_tracked row' = business_days_tracked row + 1
              ∧ tracking_day snap = business_days_tracked row'
              ∧ snapshot_key snap = event_key row')
       ∧ (∀ k : string * string,
            observations k tracking_df'
            = (observations k tracking_df
               + snapshots_logged k (track_existing_stocks yf now fs).2)%Z))
  ∧ (∀ (days : list Day) (fs fs' : Files),
       ledger_consistent fs →
       daily_runs days fs = Return fs' →
       ∀ k : string * string,
         snapshots_logged k (default [] (daily_snapshot_file fs'))
         = (observations k (default [] (tracking_file fs'))
            + observations k (default [] (historical_file fs')))%Z).
Proof.
  split.
  - intros yf now fs tracking_df Hfile.
    destruct (track_existing_stocks_spec yf now fs tracking_df Hfile)
      as (Hdf & _ & Hdaily & _).
    set (prices := run_prices yf tracking_df) in *.
    exists (step_row prices now <$> tracking_df).
    rewrite Hdaily. split_and!.
    + done.
    + apply omap_length_filter.
    + intros snap Hin.
      apply list_elem_of_omap in Hin as (row & Hrow & Hsnap).
      apply list_elem_of_lookup in Hrow as [i Hi].
      exists i, row, (step_row prices now row).
      split; [done|]. split; [by rewrite list_lookup_fmap, Hi|].
      destruct (step_row_cases prices now row)
        as [[_ Hskip]|(cur & Hact & Hcur & Heq)].
      * destruct (step_skipped prices now row Hskip) as [_ Hnone]. congruence.
      * destruct (step_updated prices now row cur Hact Hcur) as [_ Hsome].
        rewrite Hsome in Hsnap. injection Hsnap as <-.
        rewrite Heq, update_row_days, update_row_key.
        split_and!; done.
    + intros k. apply step_observations.
  - intros days fs fs' Hcons Hruns.
    apply (daily_runs_consistent days fs fs' Hcons Hruns).
Qed.

(** ** The detector *)

Lemma iloc_last_two (older : list float) (prev_close today_close : float) :
  (length (older ++ [prev_close; today_close]) <? 2)%nat = false
  ∧ iloc_neg 1 (older ++ [prev_close; today_close]) = Some today_close
  ∧ iloc_neg 2 (older ++ [prev_close; today_close]) = Some prev_close.
Proof.
  unfold iloc_neg. rewrite length_app. cbn [length].
  split_and!.
  - apply Nat.ltb_ge. lia.
  - rewrite (proj2 (Nat.leb_le _ _)) by lia.
    rewrite lookup_app_r by lia.
    by replace (length older + 2 - 1 - length older)%nat with 1%nat by lia.
  - rewrite (proj2 (Nat.leb_le _ _)) by lia.
    rewrite lookup_app_r by lia.
    by replace (length older + 2 - 2 - length older)%nat with 0%nat by lia.
Qed.

Lemma two_closes (closes : list float) :
  (length closes <? 2)%nat = false →
  ∃ older prev_close today_close, closes = older ++ [prev_close; today_close].
Proof.
  intros Hlen. apply Nat.ltb_ge in Hlen.
  destruct (decide (closes = [])) as [->|Hne]; [simpl in Hlen; lia|].
  destruct (exists_last Hne) as (init & today_close & ->).
  rewrite length_app in Hlen. simpl in Hlen.
  destruct (decide (init = [])) as [->|Hne']; [simpl in Hlen; lia|].
  destruct (exists_last Hne') as (older & prev_close & ->).
  exists older, prev_close, today_close. by rewrite <- app_assoc.
Qed.

Lemma scan_ticker_two_closes threshold now tk older prev_close today_close :
  scan_ticker threshold now tk (Return (older ++ [prev_close; today_close]))
  = if PrimFloat.leb threshold
         (PrimFloat.abs (((today_close - prev_close) / prev_close) * 100)%float)
    then Some (mover now tk prev_close today_close)
    else None.
Proof.
  unfold scan_ticker.
  destruct (iloc_last_two older prev_close today_close) as (-> & -> & ->).
  done.
Qed.

(** C6: for a symbol whose history ends with the closes [prev_close] and
    [today_close], the detector computes
    [((today_close - prev_close) / prev_close) * 100] and records a mover,
    with 0 observations and status active, exactly when the absolute value
    of that change is at least the threshold; the movers of a scan are
    exactly the movers of such symbols.  With threshold 5.0, the closes
    [100, 106] give one event with initial change 6.0 and detection price
    106, and the closes [100, 104] give none. *)
Theorem detector_emits_movers :
  (∀ (threshold : float) (now tk : string) (older : list float)
     (prev_close today_close : float),
     ∃ r : Row,
       business_days_tracked r = 0 ∧ status r = "active" ∧ ticker r = tk
       ∧ detection_price r = today_close
       ∧ change_pct r
         = F.round2 (((today_close - prev_close) / prev_close) * 100)%float
       ∧ scan_ticker threshold now tk
           (Return (older ++ [prev_close; today_close]))
         = if PrimFloat.leb threshold
              (PrimFloat.abs
                 (((today_close - prev_close) / prev_close) * 100)%float)
           then Some r else None)
  ∧ (∀ (u : Universe) (yf : PriceSource) (threshold : float) (now : string)
       (tickers : list string),
       get_sp500_tickers u = Return tickers →
       ∃ movers : list Row,
         get_daily_movers u yf threshold now = Return movers
         ∧ ∀ r : Row,
             r ∈ movers ↔
             ∃ (i : nat) (tk : string) (older : list float)
               (prev_close today_close : float),
               tickers !! i = Some tk
               ∧ yf i tk = Return (older ++ [prev_close; today_close])
               ∧ PrimFloat.leb threshold
                   (PrimFloat.abs
                      (((today_close - prev_close) / prev_close) * 100)%float)
                 = true
               ∧ r = mover now tk prev_close today_close)
  ∧ (∀ now : string,
       get_daily_movers
         {| wikipedia := Return ["X"]; cache_file := None |}
         (λ _ _, Return [100; 106]%float) 5 now
       = Return [ {| ticker := "X"; date_detected := now;
                     detection_price := 106; change_pct := 6;
                     business_days_tracked := 0; status := "active";
                     current_price := nan; total_change_pct := nan;
                     last_updated := None |} ])
  ∧ (∀ now : string,
       get_daily_movers
         {| wikipedia := Return ["X"]; cache_file := None |}
         (λ _ _, Return [100; 104]%float) 5 now
       = Return []).
Proof.
  split_and!.
  - intros threshold now tk older prev_close today_close.
    exists (mover now tk prev_close today_close).
    split_and!; try done. apply scan_ticker_two_closes.
  - intros u yf threshold now tickers Hu. unfold get_daily_movers. rewrite Hu.
    eexists. split; [done|]. intros r. rewrite list_elem_of_omap. split.
    + intros ([i tk] & Hin & Hscan). simpl in Hscan.
      apply list_elem_of_lookup in Hin as [j Hj].
      rewrite list_lookup_imap in Hj.
      destruct (tickers !! j) as [tk'|] eqn:Htk; [|done].
      injection Hj as <- <-.
      destruct (yf j tk') as [closes|] eqn:Hyf; [|done].
      destruct (length closes <? 2)%nat eqn:Hlen.
      { unfold scan_ticker in Hscan. by rewrite Hlen in Hscan. }
      destruct (two_closes closes Hlen)
        as (older & prev_close & today_close & ->).
      rewrite scan_ticker_two_closes in Hscan.
      destruct (PrimFloat.leb _ _) eqn:Hge; [|done].
      injection Hscan as <-.
      by exists j, tk', older, prev_close, today_close.
    + intros (i & tk & older & prev_close & today_close
              & Htk & Hyf & Hge & ->).
      exists (i, tk). split.
      * apply list_elem_of_lookup. exists i.
        by rewrite list_lookup_imap, Htk.
      * simpl. by rewrite Hyf, scan_ticker_two_closes, Hge.
  - intros now. vm_compute. reflexivity.
  - intros now. vm_compute. reflexivity.
Qed.

(** ** Floats: zero, sign tests and division by zero *)

(** A float that compares equal to zero ([x == 0], so either signed zero)
    is neither positive nor negative. *)
Lemma zero_not_signed (x : float) :
  PrimFloat.eqb x 0 = true → F.gt0 x = false ∧ F.lt0 x = false.
Proof.
  unfold F.gt0, F.lt0.
  rewrite FloatAxioms.eqb_spec, !FloatAxioms.ltb_spec.
  change (Prim2SF 0) with (S754_zero false).
  destruct (Prim2SF x) as [s|s| |s m e]; try destruct s; cbn;
    try discriminate; auto.
Qed.

(** Dividing by a float that compares equal to zero never gives a finite
    number: the quotient is an infinity or NaN. *)
Lemma div_by_zero (c z : float) :
  PrimFloat.eqb z 0 = true →
  PrimFloat.is_nan (c / z) = true ∨ PrimFloat.is_infinity (c / z) = true.
Proof.
  intros Hz. rewrite FloatAxioms.eqb_spec in Hz.
  change (Prim2SF 0) with (S754_zero false) in Hz.
  unfold PrimFloat.is_nan, PrimFloat.is_infinity.
  rewrite !FloatAxioms.eqb_spec, FloatAxioms.abs_spec, FloatAxioms.div_spec.
  change (Prim2SF infinity) with (S754_infinity false).
  unfold SF64div.
  destruct (Prim2SF z) as [sz|sz| |sz mz ez]; try destruct sz;
    cbn in Hz; try discriminate;
    destruct (Prim2SF c) as [sc|sc| |sc mc ec]; try destruct sc; cbn; auto.
Qed.

(** C5 (counterexample): on rows whose initial change is exactly 0 the
    extractor stores the quotient itself: +infinity for a cumulative change
    of 2.5, -infinity for -2.5, NaN for 0.  The three values differ, so no
    single sentinel value stands for the undefined ratio. *)
Lemma momentum_zero_initial_is_quotient :
  momentum_continuation <$>
    default []
      (get_ml_ready_dataset
         (Some [ zero_initial_snapshot 2.5; zero_initial_snapshot (-2.5);
                 zero_initial_snapshot 0 ]))
  = [ (2.5 / 0)%float; (-2.5 / 0)%float; (0 / 0)%float ]
  ∧ [ (2.5 / 0)%float; (-2.5 / 0)%float; (0 / 0)%float ]
    = [ infinity; neg_infinity; nan ]
  ∧ ¬ ∃ sentinel : float,
        ∀ s : Snapshot,
          initial_change_pct s = 0%float →
          momentum_continuation (ml_features s) = sentinel.
Proof.
  split_and!.
  - reflexivity.
  - vm_compute. reflexivity.
  - intros [sentinel H].
    pose proof (H (zero_initial_snapshot 2.5) eq_refl) as H1.
    pose proof (H (zero_initial_snapshot (-2.5)) eq_refl) as H2.
    rewrite <- H2 in H1.
    apply (f_equal (PrimFloat.ltb 0)) in H1. vm_compute in H1. discriminate.
Qed.

(** C5 (amended): for every snapshot row, also when its initial change
    compares equal to 0, the extractor stores the float quotient
    [cumulative / initial]; with a zero initial change that quotient is an
    infinity or NaN, never a finite number. *)
Theorem momentum_zero_initial_divides (df : list Snapshot) (i : nat)
    (s : Snapshot) :
  df !! i = Some s →
  PrimFloat.eqb (initial_change_pct s) 0 = true →
  ∃ (out : list Features) (f : Features),
    get_ml_ready_dataset (Some df) = Some out
    ∧ out !! i = Some f
    ∧ snapshot f = s
    ∧ momentum_continuation f
      = (cumulative_change_pct s / initial_change_pct s)%float
    ∧ (PrimFloat.is_nan (momentum_continuation f) = true
       ∨ PrimFloat.is_infinity (momentum_continuation f) = true).
Proof.
  intros Hi Hz. exists (ml_features <$> df), (ml_features s).
  split; [done|]. split; [by rewrite list_lookup_fmap, Hi|].
  split; [done|]. split; [done|]. by apply div_by_zero.
Qed.

(** C8: the [continued_direction] column of a row is true exactly when the
    initial and the cumulative change are both greater than 0 or both less
    than 0; when either of them compares equal to 0 it is false, whatever
    the other one is. *)
Theorem continued_direction_same_sign (df : list Snapshot) (i : nat)
    (s : Snapshot) :
  df !! i = Some s →
  ∃ (out : list Features) (f : Features),
    get_ml_ready_dataset (Some df) = Some out
    ∧ out !! i = Some f
    ∧ snapshot f = s
    ∧ (continued_direction f = true ↔
       (PrimFloat.ltb 0 (initial_change_pct s) = true
        ∧ PrimFloat.ltb 0 (cumulative_change_pct s) = true)
       ∨ (PrimFloat.ltb (initial_change_pct s) 0 = true
          ∧ PrimFloat.ltb (cumulative_change_pct s) 0 = true))
    ∧ (PrimFloat.eqb (initial_change_pct s) 0 = true
       ∨ PrimFloat.eqb (cumulative_change_pct s) 0 = true →
       continued_direction f = false).
Proof.
  intros Hi. exists (ml_features <$> df), (ml_features s).
  split; [done|]. split; [by rewrite list_lookup_fmap, Hi|].
  split; [done|]. cbn [ml_features continued_direction]. unfold F.gt0, F.lt0.
  split.
  - rewrite orb_true_iff, !andb_true_iff. done.
  - intros [Hz|Hz]; apply zero_not_signed in Hz as [Hp Hn];
      unfold F.gt0, F.lt0 in Hp, Hn; rewrite Hp, Hn.
    + done.
    + by rewrite !andb_false_r.
Qed.

(** ** The observation window over whole daily runs *)

Lemma run_daily_update_in_window u yf5d yf1d threshold now (fs : Files) out :
  Forall in_window (default [] (tracking_file fs)) →
  run_daily_update u yf5d yf1d threshold now fs = Return out →
  Forall in_window (default [] (tracking_file out.1)).
Proof.
  intros Hwin. unfold run_daily_update.
  destruct (get_daily_movers u yf5d threshold now) as [movers|] eqn:Hmovers;
    [|done].
  pose proof (get_daily_movers_fresh _ _ _ _ _ Hmovers) as Hfresh.
  assert (H1 : Forall in_window
                 (default [] (tracking_file (update_tracking_list movers fs)))).
  { unfold update_tracking_list.
    destruct (default [] (tracking_file fs) ++ movers) as [|r rows] eqn:Happ;
      [done|].
    rewrite <- Happ. cbn [tracking_file default from_option]. unfold id.
    apply Forall_app. split; [done|].
    eapply Forall_impl; [exact Hfresh|]. intros r' [Hd Ha].
    left. split; [done|lia]. }
  assert (H2 : Forall in_window
                 (default [] (tracking_file
                    (track_existing_stocks yf1d now
                       (update_tracking_list movers fs)).1))).
  { destruct (tracking_file (update_tracking_list movers fs))
      as [tracking_df|] eqn:Hfile.
    - destruct (track_existing_stocks_spec yf1d now _ tracking_df Hfile)
        as (-> & _).
      cbn [default from_option] in *. unfold id in *.
      apply Forall_fmap. eapply Forall_impl; [exact H1|].
      intros r Hr. by apply step_row_in_window.
    - unfold track_existing_stocks. rewrite Hfile. cbn [fst].
      by rewrite Hfile. }
  destruct (track_existing_stocks yf1d now (update_tracking_list movers fs))
    as [fs2 daily]. intros [= <-]. cbn [fst] in *.
  unfold archive_completed_stocks.
  destruct (tracking_file fs2) as [tracking_df|] eqn:Hfile; [|by rewrite Hfile].
  destruct (filter (λ r, status r = "completed") tracking_df); [by rewrite Hfile|].
  cbn [tracking_file default from_option] in *. unfold id in *.
  apply Forall_forall. intros x Hx.
  apply list_elem_of_filter in Hx as [_ Hx].
  eapply Forall_forall in H2; [exact H2|done].
Qed.

Lemma daily_runs_in_window (days : list Day) (fs fs' : Files) :
  Forall in_window (default [] (tracking_file fs)) →
  daily_runs days fs = Return fs' →
  Forall in_window (default [] (tracking_file fs')).
Proof.
  revert fs. induction days as [|d days IH]; intros fs Hwin; simpl.
  - by intros [= <-].
  - destruct (run_daily_update _ _ _ _ _ fs) as [out|] eqn:Hrun; [|done].
    apply IH. by eapply run_daily_update_in_window.
Qed.

(** ** When a price is unavailable *)

Lemma get_current_prices_from_unavailable (yf : PriceSource) (tk : string)
    (tickers : list string) :
  (∀ i closes, yf i tk = Return closes → closes = []) →
  ∀ (i : nat) (prices : gmap string (option float)),
    dict_get prices tk = None →
    dict_get (get_current_prices_from i yf tickers prices) tk = None.
Proof.
  intros Hyf. induction tickers as [|t tickers IH]; intros i prices Hnone;
    [done|].
  simpl. apply IH. unfold fetch_price, dict_get in *.
  destruct (decide (t = tk)) as [->|Hne].
  - destruct (yf i tk) as [closes|e] eqn:Hcall.
    + by rewrite (Hyf i closes Hcall).
    + by rewrite lookup_insert_eq.
  - destruct (yf i t) as [closes|e].
    + destruct (last closes); [|done]. by rewrite lookup_insert_ne.
    + by rewrite lookup_insert_ne.
Qed.

(** X19: a ticker for which every history call of the run raises or comes
    back empty has no current price, whatever the other tickers get. *)
Lemma get_current_prices_unavailable (yf : PriceSource) (tk : string)
    (tickers : list string) :
  (∀ i closes, yf i tk = Return closes → closes = []) →
  dict_get (get_current_prices yf tickers) tk = None.
Proof.
  intros Hyf. by apply get_current_prices_from_unavailable.
Qed.

(** ** The theorems at work on the examples *)


Lemma observation_window_invariant_witness :
  Forall in_window [ex_row]
  ∧ ∃ df1 df2 : list Row,
      tracking_file (updater_runs [(ex_yf, "2024-01-12")] ex_files) = Some df1
      ∧ tracking_file
          (track_existing_stocks ex_yf "2024-01-15"
             (updater_runs [(ex_yf, "2024-01-12")] ex_files)).1
        = Some df2
      ∧ ∃ row1 row2 : Row,
          df1 !! 0%nat = Some row1 ∧ df2 !! 0%nat = Some row2
          ∧ in_window row1 ∧ in_window row2.
Proof.
  assert (Hwin : Forall in_window [ex_row]).
  { apply Forall_cons. split; [|apply Forall_nil_2].
    left. split; [reflexivity|]. simpl. lia. }
  split; [exact Hwin|].
  destruct (observation_window_invariant [(ex_yf, "2024-01-12")] ex_yf
              "2024-01-15" ex_files [ex_row] eq_refl Hwin)
    as (df1 & df2 & H1 & H2 & Hrows).
  exists df1, df2. split; [exact H1|]. split; [exact H2|].
  destruct (Hrows 0%nat ex_row eq_refl)
    as (row1 & row2 & Hr1 & Hr2 & Hw1 & Hw2 & _).
  exists row1, row2. split_and!; assumption.
Defined.

Lemma momentum_zero_initial_divides_witness :
  PrimFloat.eqb (initial_change_pct (zero_initial_snapshot 2.5)) 0 = true
  ∧ ∃ (out : list Features) (f : Features),
      get_ml_ready_dataset (Some [zero_initial_snapshot 2.5]) = Some out
      ∧ out !! 0%nat = Some f
      ∧ momentum_continuation f = (2.5 / 0)%float.
Proof.
  split; [reflexivity|].
  destruct (momentum_zero_initial_divides [zero_initial_snapshot 2.5] 0
              (zero_initial_snapshot 2.5) eq_refl eq_refl)
    as (out & f & H1 & H2 & _ & H3 & _).
  exists out, f. split_and!; assumption.
Defined.

Lemma detector_emits_movers_witness :
  get_sp500_tickers (d_universe ex_day) = Return ["X"]
  ∧ ∃ movers : list Row,
      get_daily_movers (d_universe ex_day) (d_yf5d ex_day) 5 "2024-01-02"
      = Return movers
      ∧ (mover "2024-01-02" "X" 100 106 ∈ movers).
Proof.
  split; [reflexivity|].
  destruct detector_emits_movers as (_ & Hscan & _).
  destruct (Hscan (d_universe ex_day) (d_yf5d ex_day) 5%float "2024-01-02"
              ["X"] eq_refl) as (movers & Hmovers & Hin).
  exists movers. split; [exact Hmovers|].
  apply Hin. exists 0%nat, "X", [], 100%float, 106%float.
  split_and!; reflexivity.
Defined.


Lemma continued_direction_same_sign_witness :
  ∃ (out : list Features) (f : Features),
    get_ml_ready_dataset (Some [zero_initial_snapshot 2.5]) = Some out
    ∧ out !! 0%nat = Some f
    ∧ continued_direction f = false.
Proof.
  destruct (continued_direction_same_sign [zero_initial_snapshot 2.5] 0
              (zero_initial_snapshot 2.5) eq_refl)
    as (out & f & H1 & H2 & _ & _ & Hzero).
  exists out, f. split_and!; [exact H1|exact H2|].
  apply Hzero. left. reflexivity.
Defined.


Lemma snapshots_match_observations_witness :
  ledger_consistent empty_dir
  ∧ ∃ fs' : Files,
      daily_runs [ex_day; ex_day] empty_dir = Return fs'
      ∧ snapshots_logged ("X", "2024-01-02")
          (default [] (daily_snapshot_file fs'))
        = (observations ("X", "2024-01-02") (default [] (tracking_file fs'))
           + observations ("X", "2024-01-02")
               (default [] (historical_file fs')))%Z.
Proof.
  assert (Hcons : ledger_consistent empty_dir).
  { split; [constructor|]. intros k. reflexivity. }
  split; [exact Hcons|].
  destruct snapshots_match_observations as [_ Hruns].
  destruct (daily_runs [ex_day; ex_day] empty_dir) as [fs'|e] eqn:Hday.
  - exists fs'. split; [reflexivity|].
    apply (Hruns [ex_day; ex_day] empty_dir fs' Hcons Hday).
  - vm_compute in Hday. discriminate Hday.
Defined.

(** * Beyond the event life cycle: the rest of the two files *)

(** ** Strings: [replace], [strip] and lines of text *)

Lemma replace_dot_length (s : string) :
  String.length (replace_dot s) = String.length s.
Proof. induction s as [|c s IH]; simpl; [done|]. by rewrite IH. Qed.

Lemma replace_dot_no_dot (s : string) :
  "."%char ∉ list_ascii_of_string (replace_dot s).
Proof.
  induction s as [|c s IH]; simpl.
  - apply not_elem_of_nil.
  - apply not_elem_of_cons. split; [|done].
    destruct (Ascii.eqb_spec c "."%char) as [->|Hne]; [done|congruence].
Qed.

Lemma replace_dot_id (s : string) :
  "."%char ∉ list_ascii_of_string s → replace_dot s = s.
Proof.
  induction s as [|c s IH]; simpl; [done|].
  intros Hnot. apply not_elem_of_cons in Hnot as [Hc Hs].
  rewrite (IH Hs). destruct (Ascii.eqb_spec c "."%char); congruence.
Qed.

Lemma list_ascii_of_string_append (s1 s2 : string) :
  list_ascii_of_string (String.append s1 s2)
  = list_ascii_of_string s1 ++ list_ascii_of_string s2.
Proof. induction s1 as [|c s1 IH]; simpl; [done|]. by rewrite IH. Qed.

(** [lstrip_chars] removes a prefix of white space and stops at the first
    other character. *)
Lemma lstrip_chars_spec (l : list ascii) :
  ∃ pre, l = pre ++ lstrip_chars l
         ∧ Forall (λ c, isspace c = true) pre
         ∧ ∀ c, head (lstrip_chars l) = Some c → isspace c = false.
Proof.
  induction l as [|c l (pre & Hl & Hpre & Hhead)]; simpl.
  - exists []. split_and!; [done|constructor|done].
  - destruct (isspace c) eqn:Hc.
    + exists (c :: pre). split_and!; [simpl; by f_equal|by constructor|done].
    + exists []. split_and!; [done|constructor|].
      simpl. by intros ? [= <-].
Qed.

Lemma lstrip_chars_id (l : list ascii) :
  (∀ c, head l = Some c → isspace c = false) → lstrip_chars l = l.
Proof.
  destruct l as [|c l]; [done|]. simpl. intros H. by rewrite (H c eq_refl).
Qed.

Lemma strip_chars (s : string) :
  list_ascii_of_string (strip s)
  = rev (lstrip_chars (rev (lstrip_chars (list_ascii_of_string s)))).
Proof. unfold strip. apply list_ascii_of_string_of_list_ascii. Qed.

Lemma head_rev {A} (l : list A) : head (rev l) = last l.
Proof. rewrite rev_alt. apply head_reverse. Qed.

Lemma last_rev {A} (l : list A) : last (rev l) = head l.
Proof. rewrite rev_alt. apply last_reverse. Qed.

(** The result of [strip] neither starts nor ends with white space. *)
Lemma strip_ends (s : string) :
  (∀ c, head (list_ascii_of_string (strip s)) = Some c → isspace c = false)
  ∧ (∀ c, last (list_ascii_of_string (strip s)) = Some c → isspace c = false).
Proof.
  rewrite strip_chars.
  destruct (lstrip_chars_spec (list_ascii_of_string s)) as (pre1 & _ & _ & Hh1).
  set (l1 := lstrip_chars (list_ascii_of_string s)) in *.
  destruct (lstrip_chars_spec (rev l1)) as (pre2 & Hl2 & _ & Hh2).
  set (l2 := lstrip_chars (rev l1)) in *.
  split; intros c Hc.
  - rewrite head_rev in Hc.
    destruct l2 as [|x l2 _] using rev_ind; [done|].
    rewrite last_snoc in Hc. injection Hc as ->.
    apply Hh1. rewrite app_assoc in Hl2.
    apply (f_equal (@rev ascii)) in Hl2.
    rewrite rev_involutive, rev_unit in Hl2.
    by rewrite Hl2.
  - rewrite last_rev in Hc. by apply Hh2.
Qed.

Lemma strip_plain_line (t : string) :
  plain_ticker t → strip (String.append t nl) = t.
Proof.
  intros [Hne Hplain]. unfold strip.
  rewrite list_ascii_of_string_append.
  assert (Hns : ∀ l : list ascii,
            Forall (λ c, isspace c = false ∧ (nat_of_ascii c < 128)%nat) l →
            ∀ c, head l = Some c → isspace c = false).
  { intros [|x l] Hl c; [done|]. intros [= <-].
    by apply Forall_cons in Hl as [[? _] _]. }
  destruct (list_ascii_of_string t) as [|c0 chars] eqn:Hchars.
  { destruct t; [done|discriminate]. }
  change (list_ascii_of_string nl) with [newline].
  rewrite (lstrip_chars_id ((c0 :: chars) ++ [newline])).
  2:{ simpl. intros c [= <-]. by apply Forall_cons in Hplain as [[? _] _]. }
  rewrite rev_unit. cbn [lstrip_chars].
  change (isspace newline) with true. cbn iota.
  rewrite lstrip_chars_id by (apply Hns; by apply Forall_rev).
  rewrite rev_involutive, <- Hchars. apply string_of_list_ascii_of_string.
Qed.

Lemma string_append_assoc (a b c : string) :
  String.append (String.append a b) c = String.append a (String.append b c).
Proof.
  induction a as [|x a IH]; [done|].
  change (String x (String.append (String.append a b) c)
          = String x (String.append a (String.append b c))).
  by rewrite IH.
Qed.

Lemma read_lines_from_cons (line : string) (c : ascii) (rest : string) :
  read_lines_from line (String c rest)
  = if Ascii.eqb c newline then
      String.append line nl :: read_lines_from EmptyString rest
    else if Ascii.eqb c carriage_return then
      String.append line nl ::
        read_lines_from EmptyString
          match rest with
          | String c' rest' => if Ascii.eqb c' newline then rest' else rest
          | EmptyString => rest
          end
    else read_lines_from (String.append line (String c EmptyString)) rest.
Proof. reflexivity. Qed.

Lemma read_lines_from_line (t line text : string) :
  Forall (λ c, isspace c = false ∧ (nat_of_ascii c < 128)%nat)
    (list_ascii_of_string t) →
  read_lines_from line (String.append t (String.append nl text))
  = String.append line (String.append t nl) :: read_lines_from EmptyString text.
Proof.
  revert line. induction t as [|c t IH]; intros line Hplain.
  - simpl. done.
  - simpl in Hplain. apply Forall_cons in Hplain as [[Hc _] Ht].
    change (String.append (String c t) (String.append nl text))
      with (String c (String.append t (String.append nl text))).
    rewrite read_lines_from_cons.
    assert (Hnl : Ascii.eqb c newline = false).
    { destruct (Ascii.eqb_spec c newline) as [->|]; [discriminate|done]. }
    assert (Hcr : Ascii.eqb c carriage_return = false).
    { destruct (Ascii.eqb_spec c carriage_return) as [->|]; [discriminate|done]. }
    rewrite Hnl, Hcr, (IH _ Ht). f_equal.
    by rewrite string_append_assoc.
Qed.

Lemma read_lines_file_text (tickers : list string) :
  Forall plain_ticker tickers →
  read_lines (file_text tickers) = (λ t, String.append t nl) <$> tickers.
Proof.
  unfold read_lines. induction 1 as [|t tickers [_ Ht] _ IH]; [done|].
  cbn [file_text]. rewrite (read_lines_from_line t _ _ Ht), IH. done.
Qed.

(** ** The universe provider and the downloader *)

(** X1: when the Wikipedia attempt succeeds the cache file is not looked
    at; the tickers are the [Symbol] column in its order, each with every
    dot turned into a dash, so of the same length, free of dots, and equal
    to the symbol when the symbol has no dot. *)
Theorem wikipedia_tickers_cleaned (u : Universe) (symbols : list string) :
  wikipedia u = Return symbols →
  ∃ tickers : list string,
    get_sp500_tickers u = Return tickers
    ∧ length tickers = length symbols
    ∧ ∀ (i : nat) (symbol : string),
        symbols !! i = Some symbol →
        ∃ t : string,
          tickers !! i = Some t
          ∧ String.length t = String.length symbol
          ∧ ("."%char ∉ list_ascii_of_string t)
          ∧ ("."%char ∉ list_ascii_of_string symbol → t = symbol).
Proof.
  intros Hw. unfold get_sp500_tickers. rewrite Hw.
  exists (replace_dot <$> symbols). split; [done|].
  split; [apply length_fmap|]. intros i symbol Hi.
  exists (replace_dot symbol). rewrite list_lookup_fmap, Hi.
  split_and!; [done|apply replace_dot_length|apply replace_dot_no_dot
              |apply replace_dot_id].
Qed.

(** X2: when the Wikipedia attempt raises and the cache file can be read
    (as ASCII text), the tickers are the stripped lines of the file that
    are not blank; none is empty and none starts or ends with white space;
    dots are left as they are. *)
Theorem cache_tickers_stripped (u : Universe) (e : exn) (lines : list string) :
  wikipedia u = Raise e →
  cache_file u = Some (Return lines) →
  Forall ascii_text lines →
  ∃ tickers : list string,
    get_sp500_tickers u = Return tickers
    ∧ (∀ t : string,
         t ∈ tickers
         ↔ (t ≠ EmptyString ∧ ∃ line, line ∈ lines ∧ t = strip line))
    ∧ Forall
        (λ t, (∀ c, head (list_ascii_of_string t) = Some c → isspace c = false)
              ∧ (∀ c, last (list_ascii_of_string t) = Some c → isspace c = false))
        tickers.
Proof.
  intros Hw Hc _. unfold get_sp500_tickers. rewrite Hw, Hc.
  eexists. split; [done|].
  assert (Hin : ∀ t, t ∈ List.filter str_truthy (strip <$> lines)
                     ↔ (t ≠ EmptyString ∧ ∃ line, line ∈ lines ∧ t = strip line)).
  { intros t. rewrite list_elem_of_In, filter_In, <- list_elem_of_In.
    rewrite list_elem_of_fmap. split.
    - intros [(line & -> & Hline) Ht]. split; [|by exists line].
      intros Hempty. by rewrite Hempty in Ht.
    - intros [Hne (line & Hline & ->)]. split; [by exists line|].
      by destruct (strip line). }
  split; [exact Hin|]. apply Forall_forall. intros t Ht.
  apply Hin in Ht as [_ (line & _ & ->)]. apply strip_ends.
Qed.

Lemma clean_tickers_no_dot (column : result (list string)) (tickers : list string) :
  clean_tickers column = Return tickers →
  Forall (λ t, "."%char ∉ list_ascii_of_string t) tickers.
Proof.
  destruct column as [symbols|]; [|done]. intros [= <-].
  apply Forall_fmap, Forall_forall. intros symbol _. apply replace_dot_no_dot.
Qed.

(** X3: [download_sp500_tickers] returns the list of the first method, in
    the order requests, pandas, alternative source, that neither raises nor
    comes back empty, and leaves that list in the file, one ticker per
    line; no returned ticker contains a dot.  When all three methods fail
    it returns [None] and leaves the list of major tickers in the file. *)
Theorem download_first_success_wins (s : Sources) :
  match (download_sp500_tickers s).1 with
  | Some tickers =>
      tickers ≠ []
      ∧ (download_sp500_tickers s).2 = file_text tickers
      ∧ Forall (λ t, "."%char ∉ list_ascii_of_string t) tickers
      ∧ (download_from_wikipedia_requests s = Return tickers
         ∨ (method_failed (download_from_wikipedia_requests s)
            ∧ download_from_wikipedia_pandas s = Return tickers)
         ∨ (method_failed (download_from_wikipedia_requests s)
            ∧ method_failed (download_from_wikipedia_pandas s)
            ∧ download_from_alternative s = Return tickers))
  | None =>
      method_failed (download_from_wikipedia_requests s)
      ∧ method_failed (download_from_wikipedia_pandas s)
      ∧ method_failed (download_from_alternative s)
      ∧ (download_sp500_tickers s).2 = create_fallback_file
  end.
Proof.
  unfold download_sp500_tickers, method_failed.
  pose proof (clean_tickers_no_dot (src_wikipedia_requests s)) as H1.
  pose proof (clean_tickers_no_dot (src_wikipedia_pandas s)) as H2.
  pose proof (clean_tickers_no_dot (src_alternative s)) as H3.
  unfold download_from_wikipedia_requests, download_from_wikipedia_pandas,
    download_from_alternative in *.
  destruct (clean_tickers (src_wikipedia_requests s)) as [[|t1 l1]|e1];
    destruct (clean_tickers (src_wikipedia_pandas s)) as [[|t2 l2]|e2];
    destruct (clean_tickers (src_alternative s)) as [[|t3 l3]|e3];
    cbn [first_success fst snd];
    naive_solver.
Qed.

Lemma strip_plain_lines (tickers : list string) :
  Forall plain_ticker tickers →
  List.filter str_truthy (strip <$> ((λ t, String.append t nl) <$> tickers))
  = tickers.
Proof.
  induction 1 as [|t tickers Ht _ IH]; [done|].
  rewrite !fmap_cons, (strip_plain_line t Ht). cbn [List.filter].
  destruct Ht as [Hne _]. destruct t as [|c t]; [congruence|].
  cbn [str_truthy]. by rewrite IH.
Qed.

Lemma download_first_success_wins_file (s : Sources) (tickers : list string) :
  (download_sp500_tickers s).1 = Some tickers →
  (download_sp500_tickers s).2 = file_text tickers.
Proof.
  unfold download_sp500_tickers.
  destruct (first_success _); [|done]. by intros [= <-].
Qed.

(** X4: the file the downloader leaves is one the tracker can fall back
    on.  When the downloader returned tickers and each is a non-empty word
    of ASCII characters without white space, a tracker that cannot reach
    Wikipedia reads exactly these tickers back from the file; when the
    downloader returned [None], it reads the major tickers, each once, in
    increasing order. *)
Theorem download_then_cache_round_trip (s : Sources) (e : exn) :
  (∀ tickers : list string,
     (download_sp500_tickers s).1 = Some tickers →
     Forall plain_ticker tickers →
     get_sp500_tickers (cached_universe e (download_sp500_tickers s).2)
     = Return tickers)
  ∧ ((download_sp500_tickers s).1 = None →
     get_sp500_tickers (cached_universe e (download_sp500_tickers s).2)
     = Return (sorted_set major_tickers)).
Proof.
  split.
  - intros tickers Hret Hplain.
    pose proof (download_first_success_wins_file s tickers Hret) as ->.
    unfold get_sp500_tickers, cached_universe. cbn [wikipedia cache_file].
    rewrite (read_lines_file_text tickers Hplain). f_equal.
    by apply strip_plain_lines.
  - intros Hnone.
    assert ((download_sp500_tickers s).2 = create_fallback_file) as ->.
    { unfold download_sp500_tickers in *.
      by destruct (first_success _). }
    unfold get_sp500_tickers, cached_universe. cbn [wikipedia cache_file].
    vm_compute. reflexivity.
Qed.

(** ** The scan and the insertion into the ledger *)

Lemma scan_tickers_sublist (f : nat * string → option Row) (tickers : list string) :
  (∀ i tk r, f (i, tk) = Some r → ticker r = tk) →
  ∀ k : nat,
    ticker <$> omap f (imap (λ i tk, ((k + i)%nat, tk)) tickers)
    `sublist_of` tickers.
Proof.
  intros Hf. induction tickers as [|tk tickers IH]; intros k; [done|].
  rewrite imap_cons.
  assert (Hshift : imap ((λ i tk0, ((k + i)%nat, tk0)) ∘ S) tickers
                   = imap (λ i tk0, ((S k + i)%nat, tk0)) tickers).
  { apply imap_ext. intros i x _. simpl. f_equal. lia. }
  rewrite Hshift.
  change (omap f (((k + 0)%nat, tk) :: ?l))
    with (match f ((k + 0)%nat, tk) with
          | Some r => r :: omap f l
          | None => omap f l
          end).
  destruct (f ((k + 0)%nat, tk)) as [r|] eqn:Hr.
  - rewrite fmap_cons, (Hf _ _ _ Hr). apply sublist_skip, IH.
  - apply sublist_cons, IH.
Qed.

(** X5: whatever the price source does (histories that raise, that are
    empty or too short), a scan whose universe was fetched returns; the
    movers keep the order of the universe, at most one per position, so
    their tickers form a sublist of it, and every mover carries the date of
    the scan. *)
Theorem movers_follow_universe (u : Universe) (yf : PriceSource)
    (threshold : float) (now : string) (tickers : list string) :
  get_sp500_tickers u = Return tickers →
  ∃ movers : list Row,
    get_daily_movers u yf threshold now = Return movers
    ∧ (ticker <$> movers) `sublist_of` tickers
    ∧ (length movers ≤ length tickers)%nat
    ∧ Forall (λ r, date_detected r = now) movers.
Proof.
  intros Hu. unfold get_daily_movers. rewrite Hu. eexists. split; [done|].
  assert (Hsub : ticker <$>
                   omap (λ it, scan_ticker threshold now it.2 (yf it.1 it.2))
                     (imap pair tickers)
                 `sublist_of` tickers).
  { apply (scan_tickers_sublist
             (λ it, scan_ticker threshold now it.2 (yf it.1 it.2)) tickers)
      with (k := 0%nat).
    intros i tk r Hr. simpl in Hr. by apply scan_ticker_fresh in Hr as (_&_&?). }
  split; [exact Hsub|]. split.
  - apply sublist_length in Hsub. by rewrite length_fmap in Hsub.
  - apply Forall_forall. intros r Hin.
    apply list_elem_of_omap in Hin as ([i tk] & _ & Hr). simpl in Hr.
    unfold scan_ticker in Hr. destruct (yf i tk) as [closes|]; [|done].
    destruct (length closes <? 2)%nat; [done|].
    destruct (iloc_neg 1 closes); [|done].
    destruct (iloc_neg 2 closes); [|done].
    destruct (PrimFloat.leb _ _); [|done]. by injection Hr as <-.
Qed.



(** ** The price dictionary *)

Lemma get_current_prices_from_app yf (l1 l2 : list string) :
  ∀ (i : nat) (prices : gmap string (option float)),
    get_current_prices_from i yf (l1 ++ l2) prices
    = get_current_prices_from (i + length l1) yf l2
        (get_current_prices_from i yf l1 prices).
Proof.
  induction l1 as [|t l1 IH]; intros i prices; simpl.
  - by rewrite Nat.add_0_r.
  - rewrite IH. f_equal. lia.
Qed.

Lemma get_current_prices_from_other yf (tk : string) (tickers : list string) :
  tk ∉ tickers →
  ∀ (i : nat) (prices : gmap string (option float)),
    dict_get (get_current_prices_from i yf tickers prices) tk = dict_get prices tk.
Proof.
  induction tickers as [|t tickers IH]; intros Hnot i prices; [done|].
  apply not_elem_of_cons in Hnot as [Hne Hnot]. simpl. rewrite (IH Hnot).
  unfold fetch_price, dict_get. destruct (yf i t) as [closes|e].
  - destruct (last closes); [|done]. by rewrite lookup_insert_ne.
  - by rewrite lookup_insert_ne.
Qed.

Lemma get_current_prices_from_sound yf (tk : string) (p : float)
    (tickers : list string) :
  ∀ (k : nat) (prices : gmap string (option float)),
    dict_get (get_current_prices_from k yf tickers prices) tk = Some p →
    dict_get prices tk = Some p
    ∨ ∃ (i : nat) (closes : list float),
        tickers !! i = Some tk ∧ yf (k + i)%nat tk = Return closes
        ∧ last closes = Some p.
Proof.
  induction tickers as [|t tickers IH]; intros k prices Hp; [by left|].
  simpl in Hp. destruct (IH _ _ Hp) as [Hbefore|(i & closes & Hi & Hyf & Hl)].
  - unfold fetch_price, dict_get in Hbefore.
    destruct (yf k t) as [closes|e] eqn:Hcall.
    + destruct (last closes) as [close|] eqn:Hlast; [|by left].
      destruct (decide (t = tk)) as [->|Hne].
      * rewrite lookup_insert_eq in Hbefore. injection Hbefore as <-.
        right. exists 0%nat, closes. by rewrite Nat.add_0_r.
      * rewrite lookup_insert_ne in Hbefore by done. by left.
    + destruct (decide (t = tk)) as [->|Hne].
      * by rewrite lookup_insert_eq in Hbefore.
      * rewrite lookup_insert_ne in Hbefore by done. by left.
  - right. exists (S i), closes. split_and!; [done| |done].
    by replace (k + S i)%nat with (S k + i)%nat by lia.
Qed.

(** X8: every price in the dictionary was fetched for that very ticker: it
    is the last close of a non-empty history that some call of the loop
    got for it. *)
Theorem prices_come_from_calls (yf : PriceSource) (tickers : list string)
    (tk : string) (p : float) :
  dict_get (get_current_prices yf tickers) tk = Some p →
  ∃ (i : nat) (closes : list float),
    tickers !! i = Some tk ∧ yf i tk = Return closes ∧ last closes = Some p.
Proof.
  intros Hp. unfold get_current_prices in Hp.
  destruct (get_current_prices_from_sound yf tk p tickers 0 ∅ Hp)
    as [Hempty|H]; [|exact H].
  unfold dict_get in Hempty. by rewrite lookup_empty in Hempty.
Qed.

(** X9: when a ticker is asked for more than once, its last call decides:
    if that call raises the ticker has no price, even if an earlier call
    had fetched one; if it returns closes the price is the last of them;
    if it returns an empty history the outcome of the earlier calls
    stands. *)
Theorem last_call_decides (yf : PriceSource) (pre post : list string)
    (tk : string) :
  tk ∉ post →
  (∀ e, yf (length pre) tk = Raise e →
        dict_get (get_current_prices yf (pre ++ tk :: post)) tk = None)
  ∧ (∀ closes p, yf (length pre) tk = Return closes → last closes = Some p →
        dict_get (get_current_prices yf (pre ++ tk :: post)) tk = Some p)
  ∧ (yf (length pre) tk = Return [] →
        dict_get (get_current_prices yf (pre ++ tk :: post)) tk
        = dict_get (get_current_prices yf pre) tk).
Proof.
  intros Hpost. unfold get_current_prices.
  rewrite get_current_prices_from_app. cbn [get_current_prices_from].
  rewrite (get_current_prices_from_other yf tk post Hpost).
  unfold fetch_price, dict_get. cbn [Nat.add].
  split_and!.
  - intros e ->. by rewrite lookup_insert_eq.
  - intros closes p -> ->. by rewrite lookup_insert_eq.
  - by intros ->.
Qed.

(** ** The updater's files *)

Lemma active_stocks_none (f : nat → Row → nat * Row) (rows : list Row) :
  (∀ i r, (f i r).2 = r) →
  Forall (λ r, status r ≠ "active") rows →
  filter (λ ir : nat * Row, status ir.2 = "active") (imap f rows) = [].
Proof.
  intros Hf Hrows. revert f Hf.
  induction Hrows as [|r rows Hr _ IH]; intros f Hf; [done|].
  rewrite imap_cons, filter_cons, decide_False by (by rewrite Hf).
  apply IH. intros i r'. apply (Hf (S i) r').
Qed.

(** X10: without a ledger file, or with a ledger that has no active row,
    the updater does nothing: no file is written, no price is asked for,
    and the snapshot frame is empty. *)
Theorem track_existing_stocks_idle (yf : PriceSource) (now : string)
    (fs : Files) :
  tracking_file fs = None
  ∨ (∃ tracking_df, tracking_file fs = Some tracking_df
                    ∧ Forall (λ r, status r ≠ "active") tracking_df) →
  track_existing_stocks yf now fs = (fs, []).
Proof.
  unfold track_existing_stocks. intros [->|(tracking_df & -> & Hrows)]; [done|].
  unfold active_stocks. by rewrite (active_stocks_none pair tracking_df).
Qed.

(** X11: a run of the updater never touches the historical store, keeps
    the number of ledger rows, creates no ledger file, and only appends to
    the snapshot log: the log afterwards is the log before followed by the
    frame the run returns. *)
Theorem updater_appends_to_log (yf : PriceSource) (now : string) (fs : Files) :
  historical_file (track_existing_stocks yf now fs).1 = historical_file fs
  ∧ default [] (daily_snapshot_file (track_existing_stocks yf now fs).1)
    = default [] (daily_snapshot_file fs) ++ (track_existing_stocks yf now fs).2
  ∧ length (default [] (tracking_file (track_existing_stocks yf now fs).1))
    = length (default [] (tracking_file fs))
  ∧ (tracking_file fs = None →
     tracking_file (track_existing_stocks yf now fs).1 = None).
Proof.
  destruct (tracking_file fs) as [tracking_df|] eqn:Hfile.
  - destruct (track_existing_stocks_spec yf now fs tracking_df Hfile)
      as (-> & -> & -> & ->).
    cbn [default from_option]. unfold id.
    split_and!; [done| |by rewrite length_fmap|done].
    destruct (omap _ tracking_df); [by rewrite app_nil_r|done].
  - unfold track_existing_stocks. rewrite Hfile. cbn [fst snd].
    rewrite Hfile, app_nil_r. done.
Qed.

(** The cumulative change computed from a current and a detection price. *)
Lemma snapshot_of_fields cur now (row : Row) :
  status row = "active" →
  current_date (snapshot_of cur now row) = now
  ∧ cumulative_change_pct (snapshot_of cur now row)
    = F.round2
        (((s_current_price (snapshot_of cur now row)
           - s_detection_price (snapshot_of cur now row))
          / s_detection_price (snapshot_of cur now row)) * 100)%float
  ∧ s_status (snapshot_of cur now row)
    = if (10 <=? tracking_day (snapshot_of cur now row))%Z
      then "completed" else "active".
Proof.
  intros Hact. cbn [snapshot_of current_date cumulative_change_pct
                    s_current_price s_detection_price s_status tracking_day].
  by rewrite update_row_status, Hact.
Qed.

(** X12: what a run records is consistent with the prices it records.
    Every snapshot of the frame is dated with the run's date, its
    cumulative change is the rounded percentage change between its own
    detection price and current price, and its status is completed exactly
    when its tracking day is at least 10; every ledger row the run has
    changed carries the run's date and a cumulative change that is the
    rounded percentage change between its detection price and its current
    price. *)
Theorem run_records_are_consistent (yf : PriceSource) (now : string)
    (fs : Files) (tracking_df : list Row) :
  tracking_file fs = Some tracking_df →
  Forall
    (λ snap,
       current_date snap = now
       ∧ cumulative_change_pct snap
         = F.round2 (((s_current_price snap - s_detection_price snap)
                      / s_detection_price snap) * 100)%float
       ∧ s_status snap
         = if (10 <=? tracking_day snap)%Z then "completed" else "active")
    (track_existing_stocks yf now fs).2
  ∧ ∃ tracking_df' : list Row,
      tracking_file (track_existing_stocks yf now fs).1 = Some tracking_df'
      ∧ ∀ (i : nat) (row : Row),
          tracking_df !! i = Some row →
          ∃ row' : Row,
            tracking_df' !! i = Some row'
            ∧ (row' = row
               ∨ (last_updated row' = Some now
                  ∧ total_change_pct row'
                    = F.round2 (((current_price row' - detection_price row')
                                 / detection_price row') * 100)%float)).
Proof.
  intros Hfile.
  destruct (track_existing_stocks_spec yf now fs tracking_df Hfile)
    as (Hdf & _ & Hdaily & _).
  set (prices := run_prices yf tracking_df) in *. split.
  - rewrite Hdaily. apply Forall_forall. intros snap Hin.
    apply list_elem_of_omap in Hin as (row & _ & Hsnap).
    destruct (step_row_cases prices now row)
      as [[_ Hskip]|(cur & Hact & Hcur & _)].
    + destruct (step_skipped prices now row Hskip) as [_ Hnone]. congruence.
    + destruct (step_updated prices now row cur Hact Hcur) as [_ Hsome].
      rewrite Hsome in Hsnap. injection Hsnap as <-.
      by apply snapshot_of_fields.
  - exists (step_row prices now <$> tracking_df). split; [done|].
    intros i row Hi. exists (step_row prices now row).
    split; [by rewrite list_lookup_fmap, Hi|].
    destruct (step_row_cases prices now row)
      as [[-> _]|(cur & _ & _ & ->)]; [by left|right].
    destruct (update_row_written cur now row) as (-> & -> & ->).
    destruct (update_row_same_detection cur now row) as (_ & _ & -> & _).
    done.
Qed.

(** ** The archiver's files *)

(** X13: after the archiver no completed row is left in the ledger; the
    historical store has only grown at its end, by completed rows; the
    snapshot log is as it was. *)
Theorem archiver_drains_completed (fs : Files) :
  Forall (λ r, status r ≠ "completed")
    (default [] (tracking_file (archive_completed_stocks fs)))
  ∧ (∃ moved : list Row,
       default [] (historical_file (archive_completed_stocks fs))
       = default [] (historical_file fs) ++ moved
       ∧ Forall (λ r, status r = "completed") moved)
  ∧ daily_snapshot_file (archive_completed_stocks fs) = daily_snapshot_file fs.
Proof.
  unfold archive_completed_stocks.
  destruct (tracking_file fs) as [tracking_df|] eqn:Hfile.
  - destruct (filter (λ r, status r = "completed") tracking_df)
      as [|r completed] eqn:Hcompleted.
    + rewrite Hfile. cbn [default from_option]. unfold id. split_and!.
      * apply Forall_forall. intros x Hx Hst.
        by apply (filter_nil_not_elem_of _ _ x Hcompleted).
      * exists []. by rewrite app_nil_r.
      * done.
    + rewrite <- Hcompleted.
      cbn [tracking_file historical_file daily_snapshot_file
           default from_option]. unfold id. split_and!.
      * apply Forall_forall. intros x Hx.
        apply list_elem_of_filter in Hx as [Hx _]. congruence.
      * eexists. split; [done|]. apply Forall_forall. intros x Hx.
        by apply list_elem_of_filter in Hx as [Hx _].
      * done.
  - rewrite Hfile. split_and!; [done| |done].
    exists []. by rewrite app_nil_r.
Qed.



(** X15: a ledger row whose status is neither active nor completed is
    kept when the ledger has no completed row, and is lost for good when
    it has one: the row is then neither in the ledger nor in what the
    archiver adds to the historical store. *)
Theorem archiver_drops_other_statuses (fs : Files) (tracking_df : list Row)
    (r : Row) :
  tracking_file fs = Some tracking_df →
  r ∈ tracking_df →
  status r ≠ "active" → status r ≠ "completed" →
  (Forall (λ x, status x ≠ "completed") tracking_df →
   archive_completed_stocks fs = fs)
  ∧ (∀ c, c ∈ tracking_df → status c = "completed" →
     (r ∉ default [] (tracking_file (archive_completed_stocks fs)))
     ∧ default [] (historical_file (archive_completed_stocks fs))
       = default [] (historical_file fs)
         ++ filter (λ x, status x = "completed") tracking_df
     ∧ r ∉ filter (λ x, status x = "completed") tracking_df).
Proof.
  intros Hfile Hin Ha Hc. unfold archive_completed_stocks. rewrite Hfile.
  split.
  - intros Hnone.
    destruct (filter (λ x, status x = "completed") tracking_df)
      as [|x completed] eqn:Hcompleted; [done|].
    assert (Hx : x ∈ filter (λ x, status x = "completed") tracking_df)
      by (rewrite Hcompleted; apply list_elem_of_here).
    apply list_elem_of_filter in Hx as [Hst Hx].
    by eapply Forall_forall in Hnone.
  - intros c Hcin Hcst.
    destruct (filter (λ x, status x = "completed") tracking_df)
      as [|x completed] eqn:Hcompleted.
    { by apply (filter_nil_not_elem_of _ _ c Hcompleted) in Hcin. }
    rewrite <- Hcompleted.
    cbn [tracking_file historical_file default from_option]. unfold id.
    split_and!; [|done|]; intros Hr; by apply list_elem_of_filter in Hr as [? _].
Qed.

(** ** Whole runs *)

(** X16: a daily run that returns leaves no completed event in the ledger:
    an event that completes in a run is archived in that run.  When the
    ledger's events were in their observation window before the run, all
    events of the ledger are active afterwards, with fewer than 10
    observations. *)
Theorem run_archives_completed (u : Universe) (yf5d yf1d : PriceSource)
    (threshold : float) (now : string) (fs : Files)
    (out : Files * (list Row * list Snapshot)) :
  run_daily_update u yf5d yf1d threshold now fs = Return out →
  Forall (λ r, status r ≠ "completed") (default [] (tracking_file out.1))
  ∧ (Forall in_window (default [] (tracking_file fs)) →
     Forall (λ r, status r = "active" ∧ (0 ≤ business_days_tracked r < 10)%Z)
       (default [] (tracking_file out.1))).
Proof.
  intros Hrun.
  assert (Hdrained : Forall (λ r, status r ≠ "completed")
                       (default [] (tracking_file out.1))).
  { unfold run_daily_update in Hrun.
    destruct (get_daily_movers u yf5d threshold now); [|done].
    destruct (track_existing_stocks _ _ _) as [fs2 daily].
    injection Hrun as <-. apply archiver_drains_completed. }
  split; [exact Hdrained|]. intros Hwin.
  pose proof (run_daily_update_in_window _ _ _ _ _ _ _ Hwin Hrun) as Hwin'.
  apply Forall_forall. intros r Hr.
  eapply Forall_forall in Hdrained; [|exact Hr].
  eapply Forall_forall in Hwin'; [|exact Hr].
  destruct Hwin' as [[? ?]|[? _]]; [done|congruence].
Qed.

(** ** Runs in which every price is available *)

Lemma priced_stays_priced yf (tk : string) (tickers : list string) :
  always_priced yf →
  ∀ (i : nat) (prices : gmap string (option float)),
    is_Some (dict_get prices tk) →
    is_Some (dict_get (get_current_prices_from i yf tickers prices) tk).
Proof.
  intros Hyf. induction tickers as [|t tickers IH]; intros i prices Hp; [done|].
  simpl. apply IH. unfold fetch_price, dict_get in *.
  destruct (Hyf i t) as (closes & close & -> & ->).
  destruct (decide (t = tk)) as [->|Hne].
  - by rewrite lookup_insert_eq.
  - by rewrite lookup_insert_ne.
Qed.

Lemma asked_is_priced yf (tk : string) (tickers : list string) :
  always_priced yf → tk ∈ tickers →
  ∀ (i : nat) (prices : gmap string (option float)),
    is_Some (dict_get (get_current_prices_from i yf tickers prices) tk).
Proof.
  intros Hyf. induction tickers as [|t tickers IH]; intros Hin i prices.
  - by apply elem_of_nil in Hin.
  - simpl. destruct (decide (t = tk)) as [->|Hne].
    + apply priced_stays_priced; [done|]. unfold fetch_price, dict_get.
      destruct (Hyf i tk) as (closes & close & -> & ->).
      by rewrite lookup_insert_eq.
    + apply IH. apply elem_of_cons in Hin as [->|Hin]; [done|exact Hin].
Qed.

Lemma active_row_is_asked (tracking_df : list Row) (i : nat) (row : Row) :
  tracking_df !! i = Some row → status row = "active" →
  ticker row ∈ (λ ir : nat * Row, ticker ir.2) <$> active_stocks tracking_df.
Proof.
  intros Hi Hact. apply list_elem_of_fmap. exists (i, row). split; [done|].
  unfold active_stocks. apply list_elem_of_filter. split; [done|].
  apply list_elem_of_lookup. exists i. by rewrite list_lookup_imap, Hi.
Qed.

Lemma priced_step yf now (tracking_df : list Row) (i : nat) (row : Row) :
  always_priced yf → tracking_df !! i = Some row → in_window row →
  business_days_tracked (step_row (run_prices yf tracking_df) now row)
  = Z.min (business_days_tracked row + 1) 10
  ∧ in_window (step_row (run_prices yf tracking_df) now row).
Proof.
  intros Hyf Hi Hw. split; [|by apply step_row_in_window].
  destruct Hw as [[Hact Hd]|[Hc Hd]].
  - destruct (asked_is_priced yf (ticker row) _ Hyf
                (active_row_is_asked tracking_df i row Hi Hact) 0 ∅)
      as [cur Hcur].
    destruct (step_updated (run_prices yf tracking_df) now row cur Hact Hcur)
      as [-> _].
    rewrite update_row_days. lia.
  - destruct (step_skipped (run_prices yf tracking_df) now row) as [-> _].
    + left. congruence.
    + lia.
Qed.

(** X17: when every price is available, an event in its observation
    window with [c] observations has [min (c + n) 10] observations after
    [n] runs of the updater, and is active below 10 and completed at 10:
    each run counts once until the window closes and not at all after. *)
Theorem priced_runs_count (runs : list (PriceSource * string)) (fs : Files)
    (tracking_df : list Row) :
  tracking_file fs = Some tracking_df →
  Forall in_window tracking_df →
  Forall (λ run, always_priced run.1) runs →
  ∃ tracking_df' : list Row,
    tracking_file (updater_runs runs fs) = Some tracking_df'
    ∧ ∀ (i : nat) (row : Row),
        tracking_df !! i = Some row →
        ∃ row' : Row,
          tracking_df' !! i = Some row'
          ∧ business_days_tracked row'
            = Z.min (business_days_tracked row + Z.of_nat (length runs)) 10
          ∧ status row'
            = if (business_days_tracked row' <? 10)%Z
              then "active" else "completed".
Proof.
  intros Hfile Hwin Hruns. revert fs tracking_df Hfile Hwin.
  unfold updater_runs.
  induction Hruns as [|[yf now] runs Hyf _ IH]; intros fs tracking_df Hfile Hwin.
  - exists tracking_df. split; [done|]. intros i row Hi. exists row.
    split; [done|].
    eapply Forall_lookup_1 in Hwin; [|exact Hi].
    destruct Hwin as [[-> Hd]|[-> Hd]]; cbn [length Z.of_nat].
    + split; [lia|]. by rewrite (proj2 (Z.ltb_lt _ _)) by lia.
    + split; [lia|]. by rewrite (proj2 (Z.ltb_ge _ _)) by lia.
  - cbn [foldl fst snd]. simpl in Hyf.
    destruct (track_existing_stocks_spec yf now fs tracking_df Hfile)
      as (Hdf & _).
    assert (Hwin' : Forall in_window
                      (step_row (run_prices yf tracking_df) now <$> tracking_df)).
    { apply Forall_fmap. eapply Forall_impl; [exact Hwin|].
      intros r Hr. by apply step_row_in_window. }
    destruct (IH _ _ Hdf Hwin') as (tracking_df' & Hfile' & Hrows).
    exists tracking_df'. split; [done|]. intros i row Hi.
    destruct (Hrows i (step_row (run_prices yf tracking_df) now row))
      as (row' & Hi' & Hcount & Hstatus).
    { by rewrite list_lookup_fmap, Hi. }
    exists row'. split; [done|]. split; [|done].
    eapply Forall_lookup_1 in Hwin; [|exact Hi].
    destruct (priced_step yf now tracking_df i row Hyf Hi Hwin) as [Hstep _].
    rewrite Hcount, Hstep. cbn [length]. lia.
Qed.

(** ** The direction and the magnitude of the initial move *)

Lemma nan_not_positive (x : float) :
  PrimFloat.is_nan x = true → F.gt0 x = false.
Proof.
  unfold PrimFloat.is_nan, F.gt0.
  rewrite FloatAxioms.eqb_spec, FloatAxioms.ltb_spec.
  change (Prim2SF 0) with (S754_zero false).
  destruct (Prim2SF x) as [s|s| |s m e].
  - by destruct s.
  - by destruct s.
  - done.
  - unfold SFeqb, SFcompare at 1.
    rewrite Z.compare_refl, Pos.compare_cont_refl. by destruct s.
Qed.

Lemma abs_not_negative (x : float) : F.lt0 (PrimFloat.abs x) = false.
Proof.
  unfold F.lt0. rewrite FloatAxioms.ltb_spec, FloatAxioms.abs_spec.
  change (Prim2SF 0) with (S754_zero false).
  by destruct (Prim2SF x) as [s|s| |s m e].
Qed.

(** X18: the extractor returns one row per snapshot, in order.  The
    direction of the initial move is [gain] exactly when the initial change
    is greater than 0 and [loss] in every other case, so also when the
    initial change is zero or NaN; the magnitude is its absolute value and
    never less than 0. *)
Theorem initial_move_features (df : list Snapshot) (i : nat) (s : Snapshot) :
  df !! i = Some s →
  ∃ (out : list Features) (f : Features),
    get_ml_ready_dataset (Some df) = Some out
    ∧ length out = length df
    ∧ out !! i = Some f
    ∧ snapshot f = s
    ∧ (initial_move_direction f = "gain"
       ↔ PrimFloat.ltb 0 (initial_change_pct s) = true)
    ∧ (initial_move_direction f = "loss"
       ↔ PrimFloat.ltb 0 (initial_change_pct s) = false)
    ∧ (PrimFloat.eqb (initial_change_pct s) 0 = true
       ∨ PrimFloat.is_nan (initial_change_pct s) = true →
       initial_move_direction f = "loss")
    ∧ initial_move_magnitude f = PrimFloat.abs (initial_change_pct s)
    ∧ PrimFloat.ltb (initial_move_magnitude f) 0 = false.
Proof.
  intros Hi. exists (ml_features <$> df), (ml_features s).
  split; [done|]. split; [apply length_fmap|].
  split; [by rewrite list_lookup_fmap, Hi|]. split; [done|].
  cbn [ml_features initial_move_direction initial_move_magnitude].
  split_and!.
  - unfold F.gt0. by destruct (PrimFloat.ltb 0 (initial_change_pct s)).
  - unfold F.gt0. by destruct (PrimFloat.ltb 0 (initial_change_pct s)).
  - intros [Hz|Hn].
    + apply zero_not_signed in Hz as [-> _]. done.
    + by rewrite (nan_not_positive _ Hn).
  - done.
  - apply abs_not_negative.
Qed.

(** ** The further theorems at work on the examples *)

Lemma wikipedia_tickers_cleaned_witness :
  ∃ tickers : list string,
    get_sp500_tickers ex_universe_wikipedia = Return tickers
    ∧ tickers !! 0%nat = Some "BRK-B".
Proof.
  destruct (wikipedia_tickers_cleaned ex_universe_wikipedia ["BRK.B"; "AAPL"]
              eq_refl) as (tickers & Hret & Hlen & _).
  exists tickers. split; [exact Hret|].
  vm_compute in Hret. by injection Hret as <-.
Defined.

Lemma cache_tickers_stripped_witness :
  ∃ tickers : list string,
    get_sp500_tickers ex_universe_cache = Return tickers
    ∧ ("AAPL" ∈ tickers).
Proof.
  assert (Hascii : Forall ascii_text
                     [ String.append " AAPL " nl; nl; String.append "BRK.B" nl ]).
  { unfold ascii_text. cbn [list_ascii_of_string String.append nl].
    repeat first
      [ apply Forall_nil_2
      | apply Forall_cons; split
      | (apply Nat.ltb_lt; reflexivity) ]. }
  destruct (cache_tickers_stripped ex_universe_cache (Exception "HTTP 403") _
              eq_refl eq_refl Hascii) as (tickers & Hret & Hin & _).
  exists tickers. split; [exact Hret|].
  apply Hin. split; [discriminate|].
  exists (String.append " AAPL " nl). split; [apply list_elem_of_here|].
  vm_compute. reflexivity.
Defined.

Lemma download_then_cache_round_trip_witness :
  (download_sp500_tickers ex_sources).1 = Some ["BRK-B"; "AAPL"]
  ∧ Forall plain_ticker ["BRK-B"; "AAPL"]
  ∧ get_sp500_tickers
      (cached_universe (Exception "HTTP 403")
         (download_sp500_tickers ex_sources).2)
    = Return ["BRK-B"; "AAPL"].
Proof.
  assert (Hplain : Forall plain_ticker ["BRK-B"; "AAPL"]).
  { unfold plain_ticker. cbn [list_ascii_of_string].
    repeat first
      [ apply Forall_nil_2
      | apply Forall_cons; split
      | split
      | discriminate
      | reflexivity
      | (apply Nat.ltb_lt; reflexivity) ]. }
  split; [reflexivity|]. split; [exact Hplain|].
  apply (proj1 (download_then_cache_round_trip ex_sources (Exception "HTTP 403"))
           ["BRK-B"; "AAPL"] eq_refl Hplain).
Defined.

Lemma movers_follow_universe_witness :
  ∃ movers : list Row,
    get_daily_movers (d_universe ex_day) ex_yf_down 5 "2024-01-02"
    = Return movers
    ∧ (length movers ≤ 1)%nat.
Proof.
  destruct (movers_follow_universe (d_universe ex_day) ex_yf_down 5%float
              "2024-01-02" ["X"] eq_refl) as (movers & Hret & _ & Hlen & _).
  exists movers. split; [exact Hret|exact Hlen].
Defined.

Lemma prices_come_from_calls_witness :
  dict_get (get_current_prices ex_yf ["X"]) "X" = Some 110%float
  ∧ ∃ (i : nat) (closes : list float),
      ["X"] !! i = Some "X" ∧ ex_yf i "X" = Return closes
      ∧ last closes = Some 110%float.
Proof.
  split; [reflexivity|].
  apply (prices_come_from_calls ex_yf ["X"] "X" 110%float eq_refl).
Defined.

Lemma last_call_decides_witness :
  ("X" ∉ @nil string)
  ∧ dict_get (get_current_prices ex_yf_flaky ["X"; "X"]) "X" = None.
Proof.
  assert (Hnot : "X" ∉ @nil string) by apply not_elem_of_nil.
  split; [exact Hnot|].
  apply (proj1 (last_call_decides ex_yf_flaky ["X"] [] "X" Hnot)
           (Exception "rate limit") eq_refl).
Defined.

Lemma get_current_prices_unavailable_witness :
  (∀ i closes, ex_yf_down i "X" = Return closes → closes = [])
  ∧ dict_get (get_current_prices ex_yf_down ["X"; "Y"]) "X" = None.
Proof.
  assert (Hdown : ∀ i closes, ex_yf_down i "X" = Return closes → closes = [])
    by (intros i closes H; discriminate H).
  split; [exact Hdown|].
  apply (get_current_prices_unavailable ex_yf_down "X" ["X"; "Y"] Hdown).
Defined.

Lemma track_existing_stocks_idle_witness :
  track_existing_stocks ex_yf "2024-01-16"
    {| tracking_file := Some [ex_completed_row]; historical_file := None;
       daily_snapshot_file := None |}
  = ({| tracking_file := Some [ex_completed_row]; historical_file := None;
        daily_snapshot_file := None |}, []).
Proof.
  apply track_existing_stocks_idle. right. exists [ex_completed_row].
  split; [reflexivity|].
  apply Forall_cons. split; [discriminate|apply Forall_nil_2].
Defined.

Lemma run_records_are_consistent_witness :
  ∃ tracking_df' : list Row,
    tracking_file (track_existing_stocks ex_yf "2024-01-12" ex_files).1
    = Some tracking_df'
    ∧ ∃ row' : Row,
        tracking_df' !! 0%nat = Some row'
        ∧ (row' = ex_row ∨ last_updated row' = Some "2024-01-12").
Proof.
  destruct (run_records_are_consistent ex_yf "2024-01-12" ex_files [ex_row]
              eq_refl) as (_ & df' & Hfile & Hrows).
  exists df'. split; [exact Hfile|].
  destruct (Hrows 0%nat ex_row eq_refl) as (row' & Hi & [Hsame|[Hdate _]]);
    exists row'; (split; [exact Hi|]); [by left|by right].
Defined.


Lemma archiver_drops_other_statuses_witness :
  (ex_paused_row
   ∉ default []
       (tracking_file
          (archive_completed_stocks
             {| tracking_file := Some [ex_paused_row; ex_completed_row];
                historical_file := None; daily_snapshot_file := None |})))
  ∧ default []
      (historical_file
         (archive_completed_stocks
            {| tracking_file := Some [ex_paused_row; ex_completed_row];
               historical_file := None; daily_snapshot_file := None |}))
    = [ex_completed_row].
Proof.
  assert (Hin : ex_paused_row ∈ [ex_paused_row; ex_completed_row])
    by apply list_elem_of_here.
  assert (Hc : ex_completed_row ∈ [ex_paused_row; ex_completed_row])
    by (apply list_elem_of_further, list_elem_of_here).
  destruct (proj2 (archiver_drops_other_statuses
                     {| tracking_file := Some [ex_paused_row; ex_completed_row];
                        historical_file := None; daily_snapshot_file := None |}
                     [ex_paused_row; ex_completed_row] ex_paused_row
                     eq_refl Hin ltac:(discriminate) ltac:(discriminate))
              ex_completed_row Hc eq_refl) as (Hgone & Hhist & _).
  split; [exact Hgone|]. rewrite Hhist. reflexivity.
Defined.

Lemma run_archives_completed_witness :
  ∃ out : Files * (list Row * list Snapshot),
    run_daily_update (d_universe ex_day) (d_yf5d ex_day) (d_yf1d ex_day) 5
      "2024-01-16"
      {| tracking_file := Some [set_business_days_tracked 9 ex_row];
         historical_file := None; daily_snapshot_file := None |}
    = Return out
    ∧ Forall (λ r, status r ≠ "completed") (default [] (tracking_file out.1)).
Proof.
  eexists. split; [vm_compute; reflexivity|].
  eapply (proj1 (run_archives_completed (d_universe ex_day) (d_yf5d ex_day)
                   (d_yf1d ex_day) 5%float "2024-01-16"
                   {| tracking_file := Some [set_business_days_tracked 9 ex_row];
                      historical_file := None; daily_snapshot_file := None |}
                   _ _)).
  Unshelve. vm_compute. reflexivity.
Defined.

Lemma priced_runs_count_witness :
  ∃ tracking_df' : list Row,
    tracking_file
      (updater_runs (replicate 9 (ex_yf, "2024-01-12"))
         {| tracking_file := Some [ex_fresh_row]; historical_file := None;
            daily_snapshot_file := None |})
    = Some tracking_df'
    ∧ ∃ row' : Row,
        tracking_df' !! 0%nat = Some row'
        ∧ business_days_tracked row' = 9
        ∧ status row' = "active".
Proof.
  assert (Hyf : always_priced ex_yf).
  { intros i tk. exists [110%float], 110%float. split; reflexivity. }
  destruct (priced_runs_count (replicate 9 (ex_yf, "2024-01-12"))
              {| tracking_file := Some [ex_fresh_row]; historical_file := None;
                 daily_snapshot_file := None |} [ex_fresh_row] eq_refl)
    as (df' & Hfile & Hrows).
  - apply Forall_cons. split; [|apply Forall_nil_2].
    left. split; [reflexivity|]. cbn. lia.
  - apply Forall_replicate. exact Hyf.
  - exists df'. split; [exact Hfile|].
    destruct (Hrows 0%nat ex_fresh_row eq_refl) as (row' & Hi & Hcount & Hst).
    exists row'. split; [exact Hi|].
    change (business_days_tracked row' = 9) in Hcount.
    split; [exact Hcount|]. rewrite Hcount in Hst. exact Hst.
Defined.

Lemma initial_move_features_witness :
  ∃ (out : list Features) (f : Features),
    get_ml_ready_dataset (Some [zero_initial_snapshot 2.5]) = Some out
    ∧ out !! 0%nat = Some f
    ∧ initial_move_direction f = "loss".
Proof.
  destruct (initial_move_features [zero_initial_snapshot 2.5] 0
              (zero_initial_snapshot 2.5) eq_refl)
    as (out & f & Hout & _ & Hi & _ & _ & _ & Hloss & _).
  exists out, f. split; [exact Hout|]. split; [exact Hi|].
  apply Hloss. left. reflexivity.
Defined.
